(** * JniInvocation: choosing, loading and binding the VM library

    A shallow embedding of
    [libserial/src/main/jni/libs/nativehelper/JniInvocation.cpp].

    The file has three layers, in the order of the source:
    - C strings, pointers and the platform the code runs on (the property
      store, the dynamic linker, the build flag [HAVE_ANDROID_OS]);
    - [GetLibrary], [FindSymbol] and [Init], the last two in a small state
      and trace monad over the fields of the instance;
    - the constructor, the destructor and [GetJniInvocation], over a process
      that holds the static [jni_invocation_] slot and the live objects. *)

From Stdlib Require Import ZArith Ascii String List Lia.
From stdpp Require Import base option gmap strings list.
Import ListNotations.

Local Open Scope Z_scope.
Local Open Scope string_scope.
Local Open Scope list_scope.

(** ** C strings and pointers *)

(** [void*], function pointers and [dlopen] handles are addresses; the null
    pointer is address 0. *)
Abbreviation ptr := Z (only parsing).

Definition NULL : ptr := 0.

(** [strcmp] of <string.h>: zero exactly on equal strings, otherwise the sign
    of the first difference. *)
Definition strcmp (a b : string) : Z :=
  match String.compare a b with
  | Eq => 0
  | Lt => -1
  | Gt => 1
  end.

(** Where the characters a [const char*] points to live.  [GetLibrary] hands
    back one of three pointers: its argument, the literal behind
    [kLibraryFallback], or its own local array [default_library]. *)
Inductive storage : Set :=
| caller_storage       (* the object the caller passed; alive around the call *)
| static_storage       (* a string literal *)
| automatic_storage.   (* an array local to the function that returned it *)

(** A non-null [const char*]: the storage it points into and the characters
    up to the terminator, as they are when the pointer is produced. *)
Record c_str : Set := mk_c_str { c_storage : storage; c_chars : string }.

#[global] Instance storage_eq_dec : EqDecision storage.
Proof. solve_decision. Defined.

#[global] Instance c_str_eq_dec : EqDecision c_str.
Proof. solve_decision. Defined.

Definition literal (s : string) : c_str := mk_c_str static_storage s.
Definition argument (s : string) : c_str := mk_c_str caller_storage s.
Definition local_array (s : string) : c_str := mk_c_str automatic_storage s.

(** ** The platform *)

(** What the code finds around it: the build flag that selects the two
    variants of [GetLibrary], the system-property store, and the dynamic
    linker.  [dlopen] is always called with [RTLD_NOW]; both linker functions
    answer [NULL] for failure. *)
Record platform : Type := {
  HAVE_ANDROID_OS : bool;
  properties : gmap string string;
  dlopen : string -> ptr;
  dlsym : ptr -> string -> ptr
}.

(** Modelled from the spec: [property_get] of cutils/properties.h, which is
    not part of this repository.  The spec describes each read as yielding
    the stored value, with a documented default used when the key is unset or
    the store cannot be read.  (Stored values and both defaults used here fit
    the [PROPERTY_VALUE_MAX] buffers, so no truncation is modelled.) *)
Definition property_get (env : platform) (key default_value : string) : string :=
  default default_value (properties env !! key).

(** ** Constants of the source *)

Definition LOG_TAG : string := "JniInvocation".

Definition kLibrarySystemProperty : string := "persist.sys.dalvik.vm.lib.2".
Definition kDebuggableSystemProperty : string := "ro.debuggable".
Definition kDebuggableFallback : string := "0".
Definition kLibraryFallback : c_str := literal "libart.so".

(** ** GetLibrary *)

(** [const char* JniInvocation::GetLibrary(const char* library)].  The
    argument is [None] for a null pointer.  The pair computed first is the
    state of the two variables [library] and [default_library] at the end of
    the [#ifdef HAVE_ANDROID_OS] / [#else] block. *)
Definition GetLibrary (env : platform) (library : option c_str) : c_str :=
  let '(library, default_library) :=
    if HAVE_ANDROID_OS env then
      let debuggable :=
        property_get env kDebuggableSystemProperty kDebuggableFallback in
      if decide (strcmp debuggable "1" ≠ 0) then
        (Some kLibraryFallback, local_array "")
      else
        (library,
         local_array
           (property_get env kLibrarySystemProperty (c_chars kLibraryFallback)))
    else
      (library, kLibraryFallback) in
  match library with
  | None => default_library
  | Some library => library
  end.

(** The configuration says "debuggable": the flag is stored and is "1". *)
Definition debuggable_set (env : platform) : Prop :=
  properties env !! kDebuggableSystemProperty = Some "1".

#[global] Instance debuggable_set_dec env : Decision (debuggable_set env).
Proof. unfold debuggable_set. apply _. Defined.

(** ** The instance and its member functions *)

(** The data members of [class JniInvocation]. *)
Record JniInvocation : Set := {
  handle_ : ptr;
  JNI_GetDefaultJavaVMInitArgs_ : ptr;
  JNI_CreateJavaVM_ : ptr;
  JNI_GetCreatedJavaVMs_ : ptr
}.

(** The addresses [FindSymbol] is given: [&JNI_GetDefaultJavaVMInitArgs_],
    [&JNI_CreateJavaVM_] and [&JNI_GetCreatedJavaVMs_]. *)
Inductive member : Set :=
| addr_JNI_GetDefaultJavaVMInitArgs_
| addr_JNI_CreateJavaVM_
| addr_JNI_GetCreatedJavaVMs_.

Definition deref (pointer : member) (self : JniInvocation) : ptr :=
  match pointer with
  | addr_JNI_GetDefaultJavaVMInitArgs_ => JNI_GetDefaultJavaVMInitArgs_ self
  | addr_JNI_CreateJavaVM_ => JNI_CreateJavaVM_ self
  | addr_JNI_GetCreatedJavaVMs_ => JNI_GetCreatedJavaVMs_ self
  end.

Definition assign (pointer : member) (v : ptr) (self : JniInvocation)
  : JniInvocation :=
  match pointer with
  | addr_JNI_GetDefaultJavaVMInitArgs_ =>
      {| handle_ := handle_ self;
         JNI_GetDefaultJavaVMInitArgs_ := v;
         JNI_CreateJavaVM_ := JNI_CreateJavaVM_ self;
         JNI_GetCreatedJavaVMs_ := JNI_GetCreatedJavaVMs_ self |}
  | addr_JNI_CreateJavaVM_ =>
      {| handle_ := handle_ self;
         JNI_GetDefaultJavaVMInitArgs_ := JNI_GetDefaultJavaVMInitArgs_ self;
         JNI_CreateJavaVM_ := v;
         JNI_GetCreatedJavaVMs_ := JNI_GetCreatedJavaVMs_ self |}
  | addr_JNI_GetCreatedJavaVMs_ =>
      {| handle_ := handle_ self;
         JNI_GetDefaultJavaVMInitArgs_ := JNI_GetDefaultJavaVMInitArgs_ self;
         JNI_CreateJavaVM_ := JNI_CreateJavaVM_ self;
         JNI_GetCreatedJavaVMs_ := v |}
  end.

Definition set_handle_ (v : ptr) (self : JniInvocation) : JniInvocation :=
  {| handle_ := v;
     JNI_GetDefaultJavaVMInitArgs_ := JNI_GetDefaultJavaVMInitArgs_ self;
     JNI_CreateJavaVM_ := JNI_CreateJavaVM_ self;
     JNI_GetCreatedJavaVMs_ := JNI_GetCreatedJavaVMs_ self |}.

(** What a member function does to the outside, in the order it does it. *)
Inductive log_priority : Set := ANDROID_LOG_WARN | ANDROID_LOG_ERROR.

Inductive event : Set :=
| ev_dlopen (filename : string)
| ev_dlsym (handle : ptr) (symbol : string)
| ev_dlclose (handle : ptr)
| ev_log (priority : log_priority) (format : string) (args : list string).

#[global] Instance log_priority_eq_dec : EqDecision log_priority.
Proof. solve_decision. Defined.

#[global] Instance event_eq_dec : EqDecision event.
Proof. solve_decision. Defined.

(** A member function: from the fields of [*this] to a result, the fields
    afterwards and the events emitted. *)
Definition method (A : Type) : Type :=
  JniInvocation -> A * JniInvocation * list event.

#[global] Instance method_ret : MRet method :=
  fun A (a : A) self => (a, self, []).

#[global] Instance method_bind : MBind method :=
  fun A B (f : A -> method B) (m : method A) self =>
    let '(a, self1, t1) := m self in
    let '(b, self2, t2) := f a self1 in
    (b, self2, t1 ++ t2).

Definition read {A : Type} (f : JniInvocation -> A) : method A :=
  fun self => (f self, self, []).

Definition write (f : JniInvocation -> JniInvocation) : method unit :=
  fun self => (tt, f self, []).

Definition emit (e : event) : method unit :=
  fun self => (tt, self, [e]).

Definition call_dlopen (env : platform) (filename : string) : method ptr :=
  emit (ev_dlopen filename) ;; mret (dlopen env filename).

Definition call_dlsym (env : platform) (handle : ptr) (symbol : string)
  : method ptr :=
  emit (ev_dlsym handle symbol) ;; mret (dlsym env handle symbol).

Definition call_dlclose (handle : ptr) : method unit :=
  emit (ev_dlclose handle).

(** [ALOGE] and [ALOGW] of ALog-priv.h.  The arguments kept are the ones the
    source names; the text [dlerror()] adds is the linker's own. *)
Definition ALOGE (format : string) (args : list string) : method unit :=
  emit (ev_log ANDROID_LOG_ERROR format args).

Definition ALOGW (format : string) (args : list string) : method unit :=
  emit (ev_log ANDROID_LOG_WARN format args).

(** [bool JniInvocation::FindSymbol(void** pointer, const char* symbol)]. *)
Definition FindSymbol (env : platform) (pointer : member) (symbol : string)
  : method bool :=
  h ← read handle_ ;
  v ← call_dlsym env h symbol ;
  write (assign pointer v) ;;
  v ← read (deref pointer) ;
  if decide (v = NULL) then
    ALOGE ("Failed to find symbol %s: %s" +:+ String "010"%char "") [symbol] ;;
    h ← read handle_ ;
    call_dlclose h ;;
    write (set_handle_ NULL) ;;
    mret false
  else
    mret true.

(** The last three statements of [Init] before [return true]: reached from
    both successful exits of the open stage. *)
Definition find_symbols (env : platform) : method bool :=
  found ← FindSymbol env addr_JNI_GetDefaultJavaVMInitArgs_
            "JNI_GetDefaultJavaVMInitArgs" ;
  if negb found then mret false else
  found ← FindSymbol env addr_JNI_CreateJavaVM_ "JNI_CreateJavaVM" ;
  if negb found then mret false else
  found ← FindSymbol env addr_JNI_GetCreatedJavaVMs_ "JNI_GetCreatedJavaVMs" ;
  if negb found then mret false else
  mret true.

(** Reading the characters behind a [const char*].  The object pointed to
    must be alive: a pointer into an automatic array of a function that has
    returned designates no object any more, and a read through it has no
    defined result. *)
Definition chars_behind (s : c_str) : option string :=
  match c_storage s with
  | automatic_storage => None
  | caller_storage | static_storage => Some (c_chars s)
  end.

(** The statements of [Init] that follow [library = GetLibrary(library)],
    given the characters that [dlopen], [strcmp] and the logs read through
    [library]. *)
Definition Init_on (env : platform) (library : string) : method bool :=
  h ← call_dlopen env library ;
  write (set_handle_ h) ;;
  h ← read handle_ ;
  if decide (h = NULL) then
    if decide (strcmp library (c_chars kLibraryFallback) = 0) then
      ALOGE "Failed to dlopen %s: %s" [library] ;;
      mret false
    else
      ALOGW "Falling back from %s to %s after dlopen error: %s"
            [library; c_chars kLibraryFallback] ;;
      let library := c_chars kLibraryFallback in
      h ← call_dlopen env library ;
      write (set_handle_ h) ;;
      h ← read handle_ ;
      if decide (h = NULL) then
        ALOGE "Failed to dlopen %s: %s" [library] ;;
        mret false
      else
        find_symbols env
  else
    find_symbols env.

(** [bool JniInvocation::Init(const char* library)].  Everything [Init] does
    goes through the pointer [GetLibrary] returned, from the first [dlopen]
    on.  When that pointer is to [GetLibrary]'s own local array the call has
    no defined outcome, and the model gives it none. *)
Definition Init (env : platform) (library : option c_str)
  (self : JniInvocation) : option (bool * JniInvocation * list event) :=
  let library := GetLibrary env library in
  library ← chars_behind library ;
  Some (Init_on env library self).

(** The fields as the member initialisers of the constructor leave them. *)
Definition constructed : JniInvocation :=
  {| handle_ := NULL;
     JNI_GetDefaultJavaVMInitArgs_ := NULL;
     JNI_CreateJavaVM_ := NULL;
     JNI_GetCreatedJavaVMs_ := NULL |}.

(** The three parts of what a member function yields. *)
Definition result {A : Type} (out : A * JniInvocation * list event) : A :=
  out.1.1.

Definition after {A : Type} (out : A * JniInvocation * list event)
  : JniInvocation :=
  out.1.2.

Definition trace {A : Type} (out : A * JniInvocation * list event)
  : list event :=
  out.2.

(** Projections of a trace. *)
Definition dlopen_calls (t : list event) : list string :=
  omap (fun e => match e with ev_dlopen f => Some f | _ => None end) t.

Definition dlsym_calls (t : list event) : list (ptr * string) :=
  omap (fun e => match e with ev_dlsym h s => Some (h, s) | _ => None end) t.

Definition dlclose_calls (t : list event) : list ptr :=
  omap (fun e => match e with ev_dlclose h => Some h | _ => None end) t.

(** ** The process: the static slot and the live objects *)

(** [JniInvocation* JniInvocation::jni_invocation_] and the objects of class
    [JniInvocation] that are alive, by address. *)
Record process : Type := {
  jni_invocation_ : ptr;
  objects : gmap Z JniInvocation
}.

(** A call either returns or ends the process in a fatal log. *)
Inductive outcome (A : Type) : Type :=
| Returns (a : A)
| Aborts (cond tag message : string).

Arguments Returns {A} a.
Arguments Aborts {A} cond tag message.

(** Modelled from the spec: [__android_log_assert] of the logging library,
    which is not part of this repository.  The spec: fatal logs terminate the
    process. *)
Definition __android_log_assert {A : Type} (cond tag message : string)
  : outcome A :=
  Aborts cond tag message.

(** The process before any instance is made:
    [JniInvocation* JniInvocation::jni_invocation_ = NULL]. *)
Definition process_start : process :=
  {| jni_invocation_ := NULL; objects := ∅ |}.

(** [JniInvocation::JniInvocation()], run on the storage at [this]. *)
Definition JniInvocation_ctor (this : ptr) (p : process) : outcome process :=
  if decide (jni_invocation_ p ≠ NULL) then
    __android_log_assert "jni_invocation_ != NULL" LOG_TAG
      "JniInvocation instance already initialized"
  else
    Returns {| jni_invocation_ := this;
               objects := <[this := constructed]> (objects p) |}.

(** [JniInvocation::~JniInvocation()], run on the live object at [this]; the
    events are the [dlclose] it may make.  Nothing is modelled for an address
    that holds no object. *)
Definition JniInvocation_dtor (this : ptr) (p : process)
  : process * list event :=
  match objects p !! this with
  | Some self =>
      ({| jni_invocation_ := NULL; objects := delete this (objects p) |},
       if decide (handle_ self ≠ NULL) then [ev_dlclose (handle_ self)] else [])
  | None => (p, [])
  end.

(** [JniInvocation& JniInvocation::GetJniInvocation()]: the address of the
    registered instance, through [LOG_ALWAYS_FATAL_IF]. *)
Definition GetJniInvocation (p : process) : outcome ptr :=
  if decide (jni_invocation_ p = NULL) then
    __android_log_assert "jni_invocation_ == NULL" LOG_TAG
      "Failed to create JniInvocation instance before using JNI invocation API"
  else
    Returns (jni_invocation_ p).

(** [Init] called on the live object at [this]; no outcome where [Init] has
    none. *)
Definition call_Init (env : platform) (this : ptr) (library : option c_str)
  (p : process) : option (bool * process * list event) :=
  self ← objects p !! this ;
  out ← Init env library self ;
  Some (result out,
        {| jni_invocation_ := jni_invocation_ p;
           objects := <[this := after out]> (objects p) |},
        trace out).

(** What a host program can do with the class, and the runs it can make:
    build an object in fresh storage, call [Init] on a live one, destroy a
    live one.  A step has no outcome where the call made has none; a run
    goes through steps that return. *)
Inductive operation : Type :=
| op_new (this : ptr)
| op_Init (this : ptr) (library : option c_str)
| op_delete (this : ptr).

Definition permitted (op : operation) (p : process) : Prop :=
  match op with
  | op_new this => this ≠ NULL ∧ objects p !! this = None
  | op_Init this _ => is_Some (objects p !! this)
  | op_delete this => is_Some (objects p !! this)
  end.

Definition step (env : platform) (op : operation) (p : process)
  : option (outcome process) :=
  match op with
  | op_new this => Some (JniInvocation_ctor this p)
  | op_Init this library =>
      out ← call_Init env this library p ;
      Some (Returns out.1.2)
  | op_delete this => Some (Returns (JniInvocation_dtor this p).1)
  end.

Inductive reachable (env : platform) : process -> Prop :=
| reachable_start : reachable env process_start
| reachable_step (p p' : process) (op : operation) :
    reachable env p ->
    permitted op p ->
    step env op p = Some (Returns p') ->
    reachable env p'.

(** The statement "all null or all non-null" about the three pointers. *)
Definition all_null (self : JniInvocation) : Prop :=
  JNI_GetDefaultJavaVMInitArgs_ self = NULL
  ∧ JNI_CreateJavaVM_ self = NULL
  ∧ JNI_GetCreatedJavaVMs_ self = NULL.

Definition all_non_null (self : JniInvocation) : Prop :=
  JNI_GetDefaultJavaVMInitArgs_ self ≠ NULL
  ∧ JNI_CreateJavaVM_ self ≠ NULL
  ∧ JNI_GetCreatedJavaVMs_ self ≠ NULL.

(** The events of a failed lookup, as [FindSymbol] emits them. *)
Definition lookup_failure (handle : ptr) (symbol : string) : list event :=
  [ev_dlsym handle symbol;
   ev_log ANDROID_LOG_ERROR
     ("Failed to find symbol %s: %s" +:+ String "010"%char "") [symbol];
   ev_dlclose handle].

(** ** Platforms for the examples *)

(** A platform from tables: the libraries that open, with their handles, and
    the symbols each handle exports, with their addresses. *)
Definition platform_of (android : bool) (props : gmap string string)
  (libs : gmap string Z) (syms : gmap (Z * string) Z) : platform :=
  {| HAVE_ANDROID_OS := android;
     properties := props;
     dlopen := fun filename => default NULL (libs !! filename);
     dlsym := fun handle symbol => default NULL (syms !! (handle, symbol)) |}.

Definition art_only : gmap string Z := {[ "libart.so" := 4096 ]}.

Definition art_complete : gmap (Z * string) Z :=
  {[ (4096, "JNI_GetDefaultJavaVMInitArgs") := 4100;
     (4096, "JNI_CreateJavaVM") := 4104;
     (4096, "JNI_GetCreatedJavaVMs") := 4108 ]}.

Definition art_first_symbol_only : gmap (Z * string) Z :=
  {[ (4096, "JNI_GetDefaultJavaVMInitArgs") := 4100 ]}.

Definition user_props : gmap string string :=
  {[ kDebuggableSystemProperty := "0" ]}.

Definition eng_props : gmap string string :=
  {[ kDebuggableSystemProperty := "1"; kLibrarySystemProperty := "libfoo.so" ]}.

(** An Android user build, an Android debuggable build, and a build without
    [HAVE_ANDROID_OS] running where the same properties happen to be set. *)
Definition user_device : platform :=
  platform_of true user_props art_only art_complete.

Definition eng_device : platform :=
  platform_of true eng_props art_only art_complete.

Definition host_build : platform :=
  platform_of false eng_props art_only art_complete.

Definition host_build_user : platform :=
  platform_of false user_props art_only art_complete.

(** A device whose libart.so opens but exports only the first symbol, and
    one where nothing opens. *)
Definition truncated_art : platform :=
  platform_of true user_props art_only art_first_symbol_only.

Definition no_library : platform :=
  platform_of true eng_props ∅ ∅.

(** ** Forwarding to the loaded library *)

(** What runs behind an address: the status the function there returns for
    the arguments it is given.  [jint] statuses and pointer arguments are
    passed on as they are. *)
Definition code_space : Type := Z -> list Z -> Z.

(** A call through a function pointer.  The source makes it without a test;
    through a null pointer it has no defined result. *)
Definition through (code : code_space) (f : ptr) (args : list Z) : option Z :=
  if decide (f = NULL) then None else Some (code f args).

(** [jint JniInvocation::JNI_GetDefaultJavaVMInitArgs(void* vmargs)]. *)
Definition JNI_GetDefaultJavaVMInitArgs (code : code_space)
  (self : JniInvocation) (vmargs : Z) : option Z :=
  through code (JNI_GetDefaultJavaVMInitArgs_ self) [vmargs].

(** [jint JniInvocation::JNI_CreateJavaVM(JavaVM** p_vm, JNIEnv** p_env,
    void* vm_args)]. *)
Definition JNI_CreateJavaVM (code : code_space) (self : JniInvocation)
  (p_vm p_env vm_args : Z) : option Z :=
  through code (JNI_CreateJavaVM_ self) [p_vm; p_env; vm_args].

(** [jint JniInvocation::JNI_GetCreatedJavaVMs(JavaVM** vms, jsize size,
    jsize* vm_count)]. *)
Definition JNI_GetCreatedJavaVMs (code : code_space) (self : JniInvocation)
  (vms size vm_count : Z) : option Z :=
  through code (JNI_GetCreatedJavaVMs_ self) [vms; size; vm_count].

(** The three [extern "C"] functions: each asks [GetJniInvocation] for the
    instance and calls the member function of the same name on it.  The
    inner result is [None] where the call has no defined result: no object
    at the registered address, or a null function pointer. *)
Module extern_C.

Definition on_instance (p : process) (f : JniInvocation -> option Z)
  : outcome (option Z) :=
  match GetJniInvocation p with
  | Aborts cond tag message => Aborts cond tag message
  | Returns this => Returns (objects p !! this ≫= f)
  end.

Definition JNI_GetDefaultJavaVMInitArgs (code : code_space) (p : process)
  (vm_args : Z) : outcome (option Z) :=
  on_instance p (fun self => JNI_GetDefaultJavaVMInitArgs code self vm_args).

Definition JNI_CreateJavaVM (code : code_space) (p : process)
  (p_vm p_env vm_args : Z) : outcome (option Z) :=
  on_instance p (fun self => JNI_CreateJavaVM code self p_vm p_env vm_args).

Definition JNI_GetCreatedJavaVMs (code : code_space) (p : process)
  (vms size vm_count : Z) : outcome (option Z) :=
  on_instance p
    (fun self => JNI_GetCreatedJavaVMs code self vms size vm_count).

End extern_C.

(** ** Vocabulary for the further properties *)

(** The handle exports the three invocation symbols. *)
Definition exports_all (env : platform) (h : ptr) : Prop :=
  dlsym env h "JNI_GetDefaultJavaVMInitArgs" ≠ NULL
  ∧ dlsym env h "JNI_CreateJavaVM" ≠ NULL
  ∧ dlsym env h "JNI_GetCreatedJavaVMs" ≠ NULL.

#[global] Instance exports_all_dec env h : Decision (exports_all env h).
Proof. unfold exports_all. apply _. Defined.

(** The handles the [dlopen] calls of a trace obtained. *)
Definition opened_handles (env : platform) (t : list event) : list Z :=
  omap (fun filename =>
          if decide (dlopen env filename = NULL) then None
          else Some (dlopen env filename))
       (dlopen_calls t).

(** The formats logged at a priority. *)
Definition logged (priority : log_priority) (t : list event) : list string :=
  omap (fun e =>
          match e with
          | ev_log p format _ =>
              if decide (p = priority) then Some format else None
          | _ => None
          end) t.

(** The events of the destructor run on an instance that sits alone at
    [this]. *)
Definition destroyed_alone (this : ptr) (self : JniInvocation) : list event :=
  (JniInvocation_dtor this
     {| jni_invocation_ := this; objects := {[ this := self ]} |}).2.

(** Two more devices: a debuggable one where custom.so opens at 8192 but
    exports nothing while libart.so is complete, and a debuggable one where
    only custom.so exists, complete. *)
Definition custom_without_symbols : platform :=
  platform_of true eng_props
    {[ "custom.so" := 8192; "libart.so" := 4096 ]} art_complete.

Definition custom_only : platform :=
  platform_of true eng_props
    {[ "custom.so" := 8192 ]}
    {[ (8192, "JNI_GetDefaultJavaVMInitArgs") := 8196;
       (8192, "JNI_CreateJavaVM") := 8200;
       (8192, "JNI_GetCreatedJavaVMs") := 8204 ]}.

(** A code space for the examples: every function answers with its own
    address plus the number of its arguments. *)
Definition example_code : code_space :=
  fun f args => f + Z.of_nat (length args).

(** ** Basic facts *)

Lemma strcmp_eq_0 (a b : string) : strcmp a b = 0 <-> a = b.
Proof.
  unfold strcmp. split.
  - intros H. apply String.compare_eq_iff.
    destruct (String.compare a b); [reflexivity | lia | lia].
  - intros ->. pose proof (String.compare_antisym b b) as H.
    destruct (String.compare b b); simpl in H; [reflexivity | | ]; discriminate H.
Qed.

Lemma strcmp_refl (a : string) : strcmp a a = 0.
Proof. now apply strcmp_eq_0. Qed.

Lemma debuggable_read (env : platform) :
  property_get env kDebuggableSystemProperty kDebuggableFallback = "1"
  <-> debuggable_set env.
Proof.
  unfold property_get, debuggable_set.
  destruct (properties env !! kDebuggableSystemProperty) as [v|]; simpl.
  - split; [intros ->; reflexivity | intros [= ->]; reflexivity].
  - split; intros H; discriminate H.
Qed.

(** The three shapes of [GetLibrary]. *)
Lemma GetLibrary_not_debuggable (env : platform) (library : option c_str) :
  HAVE_ANDROID_OS env = true ->
  ~ debuggable_set env ->
  GetLibrary env library = kLibraryFallback.
Proof.
  intros Hos Hnd. unfold GetLibrary. rewrite Hos.
  destruct (decide _) as [_|Hz]; [reflexivity|].
  exfalso. apply Hnd, debuggable_read, strcmp_eq_0.
  destruct (Z.eq_dec (strcmp (property_get env kDebuggableSystemProperty
                                 kDebuggableFallback) "1") 0) as [E|E];
    [exact E | contradiction].
Qed.

Lemma GetLibrary_debuggable (env : platform) (library : option c_str) :
  HAVE_ANDROID_OS env = true ->
  debuggable_set env ->
  GetLibrary env library =
  match library with
  | Some l => l
  | None =>
      local_array
        (property_get env kLibrarySystemProperty (c_chars kLibraryFallback))
  end.
Proof.
  intros Hos Hd. unfold GetLibrary. rewrite Hos.
  apply debuggable_read in Hd. rewrite Hd.
  destruct (decide _) as [Hz|_]; [|reflexivity].
  exfalso. apply Hz. apply strcmp_refl.
Qed.

Lemma GetLibrary_host (env : platform) (library : option c_str) :
  HAVE_ANDROID_OS env = false ->
  GetLibrary env library = default kLibraryFallback library.
Proof.
  intros Hos. unfold GetLibrary. rewrite Hos. destruct library; reflexivity.
Qed.

(** ** Member functions, path by path *)

Lemma handle_assign (pointer : member) (v : Z) (self : JniInvocation) :
  handle_ (assign pointer v self) = handle_ self.
Proof. destruct pointer; reflexivity. Qed.

Lemma deref_assign (pointer : member) (v : Z) (self : JniInvocation) :
  deref pointer (assign pointer v self) = v.
Proof. destruct pointer; reflexivity. Qed.

Lemma FindSymbol_found (env : platform) (pointer : member) (symbol : string)
  (self : JniInvocation) :
  dlsym env (handle_ self) symbol ≠ NULL ->
  FindSymbol env pointer symbol self
  = (true, assign pointer (dlsym env (handle_ self) symbol) self,
     [ev_dlsym (handle_ self) symbol]).
Proof.
  intros Hv. unfold FindSymbol, call_dlsym, emit, read, write.
  unfold mbind, method_bind, mret, method_ret. cbn.
  rewrite deref_assign. destruct (decide _) as [E|_]; [contradiction|].
  reflexivity.
Qed.

Lemma FindSymbol_missing (env : platform) (pointer : member) (symbol : string)
  (self : JniInvocation) :
  dlsym env (handle_ self) symbol = NULL ->
  FindSymbol env pointer symbol self
  = (false, set_handle_ NULL (assign pointer NULL self),
     lookup_failure (handle_ self) symbol).
Proof.
  intros Hv. unfold FindSymbol, call_dlsym, call_dlclose, ALOGE, emit, read, write.
  unfold mbind, method_bind, mret, method_ret. cbn.
  rewrite deref_assign. destruct (decide _) as [_|E]; [|contradiction].
  cbn. rewrite handle_assign, Hv. reflexivity.
Qed.

(** The four ways through the lookups, from an instance whose handle is
    [h]. *)
Section find_symbols_paths.
Variable env : platform.
Variable self : JniInvocation.

Let h := handle_ self.
Let v1 := dlsym env h "JNI_GetDefaultJavaVMInitArgs".
Let v2 := dlsym env h "JNI_CreateJavaVM".
Let v3 := dlsym env h "JNI_GetCreatedJavaVMs".

Lemma find_symbols_first_missing :
  v1 = NULL ->
  find_symbols env self
  = (false,
     {| handle_ := NULL;
        JNI_GetDefaultJavaVMInitArgs_ := NULL;
        JNI_CreateJavaVM_ := JNI_CreateJavaVM_ self;
        JNI_GetCreatedJavaVMs_ := JNI_GetCreatedJavaVMs_ self |},
     lookup_failure h "JNI_GetDefaultJavaVMInitArgs").
Proof.
  intros H1. unfold find_symbols, mbind, method_bind.
  rewrite (FindSymbol_missing _ _ _ _ H1). cbn. reflexivity.
Qed.

Lemma find_symbols_second_missing :
  v1 ≠ NULL -> v2 = NULL ->
  find_symbols env self
  = (false,
     {| handle_ := NULL;
        JNI_GetDefaultJavaVMInitArgs_ := v1;
        JNI_CreateJavaVM_ := NULL;
        JNI_GetCreatedJavaVMs_ := JNI_GetCreatedJavaVMs_ self |},
     ev_dlsym h "JNI_GetDefaultJavaVMInitArgs"
     :: lookup_failure h "JNI_CreateJavaVM").
Proof.
  intros H1 H2. unfold find_symbols, mbind, method_bind.
  rewrite (FindSymbol_found _ _ _ _ H1). cbn.
  rewrite FindSymbol_missing by exact H2. cbn. reflexivity.
Qed.

Lemma find_symbols_third_missing :
  v1 ≠ NULL -> v2 ≠ NULL -> v3 = NULL ->
  find_symbols env self
  = (false,
     {| handle_ := NULL;
        JNI_GetDefaultJavaVMInitArgs_ := v1;
        JNI_CreateJavaVM_ := v2;
        JNI_GetCreatedJavaVMs_ := NULL |},
     ev_dlsym h "JNI_GetDefaultJavaVMInitArgs"
     :: ev_dlsym h "JNI_CreateJavaVM"
     :: lookup_failure h "JNI_GetCreatedJavaVMs").
Proof.
  intros H1 H2 H3. unfold find_symbols, mbind, method_bind.
  rewrite (FindSymbol_found _ _ _ _ H1). cbn.
  rewrite FindSymbol_found by exact H2. cbn.
  rewrite FindSymbol_missing by exact H3. cbn. reflexivity.
Qed.

Lemma find_symbols_all_found :
  v1 ≠ NULL -> v2 ≠ NULL -> v3 ≠ NULL ->
  find_symbols env self
  = (true,
     {| handle_ := h;
        JNI_GetDefaultJavaVMInitArgs_ := v1;
        JNI_CreateJavaVM_ := v2;
        JNI_GetCreatedJavaVMs_ := v3 |},
     [ev_dlsym h "JNI_GetDefaultJavaVMInitArgs";
      ev_dlsym h "JNI_CreateJavaVM";
      ev_dlsym h "JNI_GetCreatedJavaVMs"]).
Proof.
  intros H1 H2 H3. unfold find_symbols, mbind, method_bind.
  rewrite (FindSymbol_found _ _ _ _ H1). cbn.
  rewrite FindSymbol_found by exact H2. cbn.
  rewrite FindSymbol_found by exact H3. cbn. reflexivity.
Qed.
End find_symbols_paths.

(** The four ways through the open stage, for the name read. *)
Section Init_on_paths.
Variable env : platform.
Variable name : string.
Variable self : JniInvocation.

Lemma Init_opened :
  dlopen env name ≠ NULL ->
  Init_on env name self
  = let out := find_symbols env (set_handle_ (dlopen env name) self) in
    (result out, after out, ev_dlopen name :: trace out).
Proof.
  intros Ho. unfold Init_on, call_dlopen, emit, read, write.
  unfold mbind, method_bind, mret, method_ret. cbn.
  destruct (decide _) as [E|_]; [contradiction|].
  destruct (find_symbols env _) as [[r s] t]. reflexivity.
Qed.

Lemma Init_nothing_else_to_try :
  dlopen env name = NULL -> name = "libart.so" ->
  Init_on env name self
  = (false, set_handle_ NULL self,
     [ev_dlopen name;
      ev_log ANDROID_LOG_ERROR "Failed to dlopen %s: %s" [name]]).
Proof.
  intros Ho Hn. unfold Init_on, call_dlopen, ALOGE, emit, read, write.
  unfold mbind, method_bind, mret, method_ret. cbn.
  destruct (decide _) as [_|E]; [|contradiction].
  destruct (decide _) as [_|E]; [|exfalso; apply E, strcmp_eq_0, Hn].
  rewrite Ho. reflexivity.
Qed.

Lemma Init_fallback_opened :
  dlopen env name = NULL -> name ≠ "libart.so" ->
  dlopen env "libart.so" ≠ NULL ->
  Init_on env name self
  = let out :=
      find_symbols env (set_handle_ (dlopen env "libart.so") self) in
    (result out, after out,
     ev_dlopen name
     :: ev_log ANDROID_LOG_WARN
          "Falling back from %s to %s after dlopen error: %s"
          [name; "libart.so"]
     :: ev_dlopen "libart.so" :: trace out).
Proof.
  intros Ho Hn Hf. unfold Init_on, call_dlopen, ALOGW, emit, read, write.
  unfold mbind, method_bind, mret, method_ret. cbn.
  destruct (decide _) as [_|E]; [|contradiction].
  destruct (decide _) as [E|_]; [exfalso; apply Hn, strcmp_eq_0, E|].
  destruct (decide _) as [E|_]; [contradiction|].
  destruct (find_symbols env _) as [[r s] t]. reflexivity.
Qed.

Lemma Init_fallback_failed :
  dlopen env name = NULL -> name ≠ "libart.so" ->
  dlopen env "libart.so" = NULL ->
  Init_on env name self
  = (false, set_handle_ NULL self,
     [ev_dlopen name;
      ev_log ANDROID_LOG_WARN
        "Falling back from %s to %s after dlopen error: %s"
        [name; "libart.so"];
      ev_dlopen "libart.so";
      ev_log ANDROID_LOG_ERROR "Failed to dlopen %s: %s" ["libart.so"]]).
Proof.
  intros Ho Hn Hf. unfold Init_on, call_dlopen, ALOGW, ALOGE, emit, read, write.
  unfold mbind, method_bind, mret, method_ret. cbn.
  destruct (decide _) as [_|E]; [|contradiction].
  destruct (decide _) as [E|_]; [exfalso; apply Hn, strcmp_eq_0, E|].
  destruct (decide _) as [_|E]; [|contradiction].
  cbn. rewrite Hf. reflexivity.
Qed.
End Init_on_paths.

(** [Init] has an outcome exactly when the name can be read, and then it is
    the outcome of the statements that follow on that name. *)
Lemma chars_behind_Some (s : c_str) (name : string) :
  chars_behind s = Some name ->
  name = c_chars s ∧ c_storage s ≠ automatic_storage.
Proof.
  unfold chars_behind. destruct (c_storage s); intros [= <-]; split;
    (reflexivity || discriminate).
Qed.

Lemma Init_readable (env : platform) (library : option c_str)
  (self : JniInvocation) (name : string) :
  chars_behind (GetLibrary env library) = Some name ->
  Init env library self = Some (Init_on env name self).
Proof. intros H. unfold Init. cbn. now rewrite H. Qed.

Lemma Init_outcome (env : platform) (library : option c_str)
  (self : JniInvocation) (out : bool * JniInvocation * list event) :
  Init env library self = Some out ->
  chars_behind (GetLibrary env library)
  = Some (c_chars (GetLibrary env library))
  ∧ out = Init_on env (c_chars (GetLibrary env library)) self.
Proof.
  unfold Init. cbn.
  destruct (chars_behind (GetLibrary env library)) as [name|] eqn:Hname;
    cbn; [|discriminate].
  intros [= <-]. apply chars_behind_Some in Hname as [-> _]. auto.
Qed.

Lemma Init_dead_array (env : platform) (library : option c_str)
  (self : JniInvocation) :
  c_storage (GetLibrary env library) = automatic_storage ->
  Init env library self = None.
Proof. intros H. unfold Init, chars_behind. cbn. now rewrite H. Qed.

(** Case analysis along those paths: on the open stage for one name, and on
    the lookups made from a given instance. *)
Ltac open_paths env name self :=
  let Ho := fresh "Hopen" in
  let Hn := fresh "Hname" in
  let Hf := fresh "Hfallback" in
  destruct (decide (dlopen env name = NULL)) as [Ho|Ho];
  [ destruct (decide (name = "libart.so")) as [Hn|Hn];
    [ rewrite (Init_nothing_else_to_try env name self Ho Hn)
    | destruct (decide (dlopen env "libart.so" = NULL)) as [Hf|Hf];
      [ rewrite (Init_fallback_failed env name self Ho Hn Hf)
      | rewrite (Init_fallback_opened env name self Ho Hn Hf) ] ]
  | rewrite (Init_opened env name self Ho) ].

Ltac lookup_paths env self :=
  let H1 := fresh "Hfirst" in
  let H2 := fresh "Hsecond" in
  let H3 := fresh "Hthird" in
  destruct (decide (dlsym env (handle_ self) "JNI_GetDefaultJavaVMInitArgs"
                    = NULL)) as [H1|H1];
  [ rewrite (find_symbols_first_missing env self H1)
  | destruct (decide (dlsym env (handle_ self) "JNI_CreateJavaVM" = NULL))
      as [H2|H2];
    [ rewrite (find_symbols_second_missing env self H1 H2)
    | destruct (decide (dlsym env (handle_ self) "JNI_GetCreatedJavaVMs"
                        = NULL)) as [H3|H3];
      [ rewrite (find_symbols_third_missing env self H1 H2 H3)
      | rewrite (find_symbols_all_found env self H1 H2 H3) ] ] ].

Lemma find_symbols_no_dlopen (env : platform) (self : JniInvocation) :
  dlopen_calls (trace (find_symbols env self)) = [].
Proof. lookup_paths env self; reflexivity. Qed.

(** When the lookups fail the handle is gone and closed once; when they
    succeed it stays and nothing is closed. *)
Lemma find_symbols_handle (env : platform) (self : JniInvocation) :
  let out := find_symbols env self in
  if result out
  then handle_ (after out) = handle_ self ∧ dlclose_calls (trace out) = []
  else handle_ (after out) = NULL
       ∧ dlclose_calls (trace out) = [handle_ self].
Proof. lookup_paths env self; cbn; auto. Qed.

(** A lookup that fails inside [find_symbols] is the last one made. *)
Lemma find_symbols_lookup_failure
  (env : platform) (self : JniInvocation) (h : Z) (symbol : string) :
  let out := find_symbols env self in
  ev_dlsym h symbol ∈ trace out ->
  dlsym env h symbol = NULL ->
  h = handle_ self
  ∧ result out = false
  ∧ ∃ before,
      trace out = before ++ lookup_failure h symbol
      ∧ ∀ h' s', ev_dlsym h' s' ∈ before -> dlsym env h' s' ≠ NULL.
Proof.
  intros out Hin Hnull. subst out. revert Hin.
  lookup_paths env self; unfold trace, result, lookup_failure; cbn;
    rewrite ?elem_of_cons, ?elem_of_nil; intros Hin.
  - destruct Hin as [[= -> ->]|[[=]|[[=]|[]]]].
    split; [reflexivity|]. split; [reflexivity|].
    exists []. split; [reflexivity|]. intros h' s' Hb. inversion Hb.
  - destruct Hin as [[= -> ->]|[[= -> ->]|[[=]|[[=]|[]]]]]; [contradiction|].
    split; [reflexivity|]. split; [reflexivity|].
    exists [ev_dlsym (handle_ self) "JNI_GetDefaultJavaVMInitArgs"].
    split; [reflexivity|]. intros h' s' Hb.
    apply list_elem_of_singleton in Hb. injection Hb as -> ->. assumption.
  - destruct Hin as [[= -> ->]|[[= -> ->]|[[= -> ->]|[[=]|[[=]|[]]]]]];
      [contradiction | contradiction |].
    split; [reflexivity|]. split; [reflexivity|].
    exists [ev_dlsym (handle_ self) "JNI_GetDefaultJavaVMInitArgs";
            ev_dlsym (handle_ self) "JNI_CreateJavaVM"].
    split; [reflexivity|]. intros h' s'.
    rewrite !elem_of_cons, elem_of_nil.
    intros [[= -> ->]|[[= -> ->]|[]]]; assumption.
  - destruct Hin as [[= -> ->]|[[= -> ->]|[[= -> ->]|[]]]]; contradiction.
Qed.

(** ** The process: one slot, at most one object *)

(** Along every run the static slot names the live object, if there is
    one. *)
Lemma reachable_slot (env : platform) (p : process) :
  reachable env p ->
  dom (objects p)
  = if decide (jni_invocation_ p = NULL) then ∅ else {[ jni_invocation_ p ]}.
Proof.
  induction 1 as [|p p' op Hreach IH Hperm Hstep].
  - cbn. apply dom_empty_L.
  - destruct op as [this|this library|this]; cbn in Hperm, Hstep.
    + unfold JniInvocation_ctor, __android_log_assert in Hstep.
      destruct (decide (jni_invocation_ p ≠ NULL)) as [Hs|Hs];
        [discriminate Hstep|].
      injection Hstep as <-. cbn. destruct Hperm as [Hthis _].
      destruct (decide (this = NULL)) as [E|_]; [contradiction|].
      destruct (decide (jni_invocation_ p = NULL)) as [_|E];
        [|exfalso; apply Hs; exact E].
      rewrite dom_insert_L, IH. apply union_empty_r_L.
    + destruct Hperm as [self Hself]. unfold call_Init in Hstep.
      rewrite Hself in Hstep. cbn in Hstep.
      destruct (Init env library self) as [out|]; [|discriminate Hstep].
      cbn in Hstep. injection Hstep as <-. cbn.
      rewrite dom_insert_L, <- IH.
      apply subseteq_union_1_L, singleton_subseteq_l, elem_of_dom. eauto.
    + destruct Hperm as [self Hself]. unfold JniInvocation_dtor in Hstep.
      rewrite Hself in Hstep. cbn in Hstep. injection Hstep as <-. cbn.
      assert (Hin : this ∈ dom (objects p)) by (apply elem_of_dom; eauto).
      rewrite dom_delete_L, IH. rewrite IH in Hin.
      destruct (decide (jni_invocation_ p = NULL)) as [_|_].
      * apply not_elem_of_empty in Hin. destruct Hin.
      * apply elem_of_singleton in Hin as ->. apply difference_diag_L.
Qed.

(** ** Helpers for the further properties *)

Lemma destroyed_alone_events (this : Z) (self : JniInvocation) :
  destroyed_alone this self
  = if decide (handle_ self ≠ NULL) then [ev_dlclose (handle_ self)] else [].
Proof.
  unfold destroyed_alone, JniInvocation_dtor. cbn.
  now rewrite lookup_singleton_eq.
Qed.

(** The lookups read the handle and nothing else of the instance. *)
Lemma find_symbols_independent (env : platform) (self self' : JniInvocation) :
  handle_ self = handle_ self' ->
  result (find_symbols env self) = result (find_symbols env self')
  ∧ trace (find_symbols env self) = trace (find_symbols env self')
  ∧ handle_ (after (find_symbols env self))
    = handle_ (after (find_symbols env self'))
  ∧ (result (find_symbols env self) = true ->
     after (find_symbols env self) = after (find_symbols env self')).
Proof.
  intros Hh.
  destruct (decide (dlsym env (handle_ self) "JNI_GetDefaultJavaVMInitArgs"
                    = NULL)) as [H1|H1].
  { rewrite (find_symbols_first_missing env self H1).
    rewrite Hh in H1. rewrite (find_symbols_first_missing env self' H1).
    unfold result, after, trace. cbn. rewrite Hh.
    repeat split; discriminate. }
  destruct (decide (dlsym env (handle_ self) "JNI_CreateJavaVM" = NULL))
    as [H2|H2].
  { rewrite (find_symbols_second_missing env self H1 H2).
    rewrite Hh in H1, H2.
    rewrite (find_symbols_second_missing env self' H1 H2).
    unfold result, after, trace. cbn. rewrite Hh.
    repeat split; discriminate. }
  destruct (decide (dlsym env (handle_ self) "JNI_GetCreatedJavaVMs" = NULL))
    as [H3|H3].
  { rewrite (find_symbols_third_missing env self H1 H2 H3).
    rewrite Hh in H1, H2, H3.
    rewrite (find_symbols_third_missing env self' H1 H2 H3).
    unfold result, after, trace. cbn. rewrite Hh.
    repeat split; discriminate. }
  rewrite (find_symbols_all_found env self H1 H2 H3).
  rewrite Hh in H1, H2, H3.
  rewrite (find_symbols_all_found env self' H1 H2 H3).
  unfold result, after, trace. cbn. rewrite Hh. repeat split.
Qed.

(** The access point along a run: fatal with no live instance, the address
    of the live one otherwise. *)
Lemma access_point_cases (env : platform) (p : process) :
  reachable env p ->
  (objects p = ∅ ->
   GetJniInvocation p
   = Aborts "jni_invocation_ == NULL" "JniInvocation"
       "Failed to create JniInvocation instance before using JNI invocation API")
  ∧ (∀ this self, objects p !! this = Some self ->
                  GetJniInvocation p = Returns this).
Proof.
  intros Hreach. pose proof (reachable_slot env p Hreach) as Hdom.
  unfold GetJniInvocation, __android_log_assert.
  destruct (decide (jni_invocation_ p = NULL)) as [Hs|Hs]; split.
  - reflexivity.
  - intros this self Hlive.
    assert (Hin : this ∈ dom (objects p)) by (apply elem_of_dom; eauto).
    rewrite Hdom in Hin. apply not_elem_of_empty in Hin. destruct Hin.
  - intros Hnone. rewrite Hnone, dom_empty_L in Hdom.
    assert (Hin : jni_invocation_ p ∈ (∅ : gset Z))
      by (rewrite Hdom; now apply elem_of_singleton).
    apply not_elem_of_empty in Hin. destruct Hin.
  - intros this self Hlive.
    assert (Hin : this ∈ dom (objects p)) by (apply elem_of_dom; eauto).
    rewrite Hdom in Hin. apply elem_of_singleton in Hin. now subst this.
Qed.

(** Solves goals about explicit traces once every test on [dlopen] and
    [dlsym] results has a hypothesis deciding it. *)
Ltac settle_tests :=
  repeat (cbn in *;
          match goal with
          | |- context [decide ?P] =>
              destruct (decide P); try contradiction; try congruence
          end);
  cbn in *; try contradiction; try congruence; auto.

(** ** What Init does on the name it read *)

(** The paths of [Init_on], fully split. *)
Ltac all_paths env name self :=
  open_paths env name self;
  [ | | lookup_paths env (set_handle_ (dlopen env "libart.so") self)
  | lookup_paths env (set_handle_ (dlopen env name) self) ].

Ltac split_membership :=
  repeat match goal with
    | H : _ ∨ _ |- _ => destruct H as [H|H]
    | H : False |- _ => destruct H
    | H : _ ∈ _ :: _ |- _ => apply elem_of_cons in H as [H|H]
    | H : _ ∈ [] |- _ => apply elem_of_nil in H; destruct H
    | H : ev_dlsym _ _ = _ |- _ => simplify_eq H; clear H; intros
    | H : ev_dlclose _ = _ |- _ => simplify_eq H; clear H; intros
    end.

Lemma Init_on_open_failure
  (env : platform) (name : string) (self : JniInvocation) :
  dlopen env name = NULL ->
  (name = "libart.so" ->
   result (Init_on env name self) = false
   ∧ trace (Init_on env name self)
     = [ev_dlopen name;
        ev_log ANDROID_LOG_ERROR "Failed to dlopen %s: %s" [name]])
  ∧ (name ≠ "libart.so" ->
     dlopen_calls (trace (Init_on env name self)) = [name; "libart.so"]
     ∧ (dlopen env "libart.so" = NULL ->
        result (Init_on env name self) = false
        ∧ trace (Init_on env name self)
          = [ev_dlopen name;
             ev_log ANDROID_LOG_WARN
               "Falling back from %s to %s after dlopen error: %s"
               [name; "libart.so"];
             ev_dlopen "libart.so";
             ev_log ANDROID_LOG_ERROR "Failed to dlopen %s: %s"
               ["libart.so"]])).
Proof.
  intros Hfail.
  open_paths env name self; [| | |contradiction].
  - split; [auto | intros Hne; contradiction].
  - split; [intros He; contradiction | auto].
  - split; [intros He; contradiction|]. intros _. split.
    + cbn. now rewrite find_symbols_no_dlopen.
    + intros Hnull. contradiction.
Qed.

Lemma Init_on_open_failure_fields
  (env : platform) (name : string) (self : JniInvocation) :
  dlopen env name = NULL ->
  name = "libart.so" ∨ dlopen env "libart.so" = NULL ->
  Init_on env name self
  = (false, set_handle_ NULL self, trace (Init_on env name self))
  ∧ dlsym_calls (trace (Init_on env name self)) = []
  ∧ dlclose_calls (trace (Init_on env name self)) = [].
Proof.
  intros Hfail Hstop.
  open_paths env name self; [| | |contradiction].
  - cbn. auto.
  - cbn. auto.
  - destruct Hstop; contradiction.
Qed.

(** The first [dlopen] is of the name read; every [dlopen] fails exactly
    when that name fails and is libart.so or libart.so fails too. *)
Lemma Init_on_first_open
  (env : platform) (name : string) (self : JniInvocation) :
  ∃ rest, dlopen_calls (trace (Init_on env name self)) = name :: rest.
Proof.
  open_paths env name self; unfold trace at 1; cbn -[find_symbols];
    eexists; reflexivity.
Qed.

Lemma Init_on_every_open_failed
  (env : platform) (name : string) (self : JniInvocation) :
  (∀ f, f ∈ dlopen_calls (trace (Init_on env name self)) ->
        dlopen env f = NULL)
  ↔ dlopen env name = NULL
    ∧ (name = "libart.so" ∨ dlopen env "libart.so" = NULL).
Proof.
  open_paths env name self; unfold trace at 1; cbn -[find_symbols];
    rewrite ?find_symbols_no_dlopen; split.
  - intros _. auto.
  - intros _ f. rewrite list_elem_of_singleton. now intros ->.
  - intros _. auto.
  - intros _ f. rewrite !elem_of_cons, elem_of_nil.
    intros [->|[->|[]]]; assumption.
  - intros H. exfalso. apply Hfallback, H.
    apply list_elem_of_further, list_elem_of_here.
  - intros [_ [Hn|Hf]]; contradiction.
  - intros H. exfalso. apply Hopen, H. apply list_elem_of_here.
  - intros [Hn _]. contradiction.
Qed.

Lemma Init_on_lookup_failure
  (env : platform) (name : string) (self : JniInvocation)
  (h : Z) (symbol : string) :
  ev_dlsym h symbol ∈ trace (Init_on env name self) ->
  dlsym env h symbol = NULL ->
  result (Init_on env name self) = false
  ∧ handle_ (after (Init_on env name self)) = NULL
  ∧ h ≠ NULL
  ∧ dlclose_calls (trace (Init_on env name self)) = [h]
  ∧ ∃ before,
      trace (Init_on env name self) = before ++ lookup_failure h symbol
      ∧ ∀ h' s', ev_dlsym h' s' ∈ before -> dlsym env h' s' ≠ NULL.
Proof.
  intros Hin Hnull. revert Hin.
  open_paths env name self; unfold trace at 1; cbn -[find_symbols];
    rewrite ?elem_of_cons, ?elem_of_nil; intros Hin.
  - destruct Hin as [[=]|[[=]|[]]].
  - destruct Hin as [[=]|[[=]|[[=]|[[=]|[]]]]].
  - destruct Hin as [[=]|[[=]|[[=]|Hin]]].
    pose proof (find_symbols_handle env
                  (set_handle_ (dlopen env "libart.so") self)) as Hh.
    destruct (find_symbols_lookup_failure env _ h symbol Hin Hnull)
      as (-> & Hr & before & Ht & Hb).
    cbv zeta in Hh. rewrite Hr in Hh. destruct Hh as [Hh Hc].
    unfold trace, result, after in *. cbn -[find_symbols] in *.
    split; [exact Hr|]. split; [exact Hh|]. split; [exact Hfallback|].
    split; [exact Hc|].
    eexists (_ :: _ :: _ :: before). rewrite Ht.
    split; [reflexivity|].
    intros h' s'. rewrite !elem_of_cons.
    intros [[=]|[[=]|[[=]|Hin']]]. now apply Hb.
  - destruct Hin as [[=]|Hin].
    pose proof (find_symbols_handle env
                  (set_handle_ (dlopen env name) self)) as Hh.
    destruct (find_symbols_lookup_failure env _ h symbol Hin Hnull)
      as (-> & Hr & before & Ht & Hb).
    cbv zeta in Hh. rewrite Hr in Hh. destruct Hh as [Hh Hc].
    unfold trace, result, after in *. cbn -[find_symbols] in *.
    split; [exact Hr|]. split; [exact Hh|]. split; [exact Hopen|].
    split; [exact Hc|].
    eexists (_ :: before). rewrite Ht.
    split; [reflexivity|].
    intros h' s'. rewrite !elem_of_cons.
    intros [[=]|Hin']. now apply Hb.
Qed.

Lemma Init_on_true_iff
  (env : platform) (name : string) (self : JniInvocation) :
  result (Init_on env name self) = true
  ↔ (dlopen env name ≠ NULL ∧ exports_all env (dlopen env name))
    ∨ (dlopen env name = NULL
       ∧ name ≠ "libart.so"
       ∧ dlopen env "libart.so" ≠ NULL
       ∧ exports_all env (dlopen env "libart.so")).
Proof.
  all_paths env name self;
    unfold result, exports_all; cbn in *;
    (split;
     [ intros Hr; try discriminate Hr; tauto
     | intros [(Ha & Hb & Hc & Hd)|(Ha & Hb & Hc & Hd & He & Hf)];
       try reflexivity; try contradiction; congruence ]).
Qed.

Lemma Init_on_no_fallback
  (env : platform) (name : string) (self : JniInvocation) :
  dlopen env name ≠ NULL ->
  dlopen_calls (trace (Init_on env name self)) = [name]
  ∧ (¬ exports_all env (dlopen env name) ->
     result (Init_on env name self) = false).
Proof.
  intros Hopened. split.
  - rewrite (Init_opened env name self Hopened).
    unfold trace at 1. cbn -[find_symbols].
    now rewrite find_symbols_no_dlopen.
  - intros Hmissing. rewrite (Init_opened env name self Hopened).
    lookup_paths env (set_handle_ (dlopen env name) self); try reflexivity.
    exfalso. apply Hmissing. unfold exports_all. cbn in *. auto.
Qed.

Lemma Init_on_logs
  (env : platform) (name : string) (self : JniInvocation) :
  length (logged ANDROID_LOG_ERROR (trace (Init_on env name self)))
  = (if result (Init_on env name self) then 0%nat else 1%nat)
  ∧ logged ANDROID_LOG_WARN (trace (Init_on env name self))
    = (if decide (dlopen env name = NULL ∧ name ≠ "libart.so")
       then ["Falling back from %s to %s after dlopen error: %s"]
       else []).
Proof.
  destruct (decide (_ ∧ _)) as [[Ha Hb]|Hn];
    (all_paths env name self);
    try contradiction;
    try (exfalso; apply Hn; split; assumption);
    unfold result, trace, logged, lookup_failure; cbn;
    split; reflexivity.
Qed.

Lemma Init_on_independent
  (env : platform) (name : string) (self self' : JniInvocation) :
  result (Init_on env name self) = result (Init_on env name self')
  ∧ trace (Init_on env name self) = trace (Init_on env name self')
  ∧ handle_ (after (Init_on env name self))
    = handle_ (after (Init_on env name self'))
  ∧ (result (Init_on env name self) = true ->
     after (Init_on env name self) = after (Init_on env name self')).
Proof.
  destruct (decide (dlopen env name = NULL)) as [Ho|Ho].
  - destruct (decide (name = "libart.so")) as [Hn|Hn].
    + rewrite !(Init_nothing_else_to_try env name _ Ho Hn).
      unfold result, after, trace. cbn. repeat split; discriminate.
    + destruct (decide (dlopen env "libart.so" = NULL)) as [Hf|Hf].
      * rewrite !(Init_fallback_failed env name _ Ho Hn Hf).
        unfold result, after, trace. cbn. repeat split; discriminate.
      * rewrite !(Init_fallback_opened env name _ Ho Hn Hf).
        destruct (find_symbols_independent env
                    (set_handle_ (dlopen env "libart.so") self)
                    (set_handle_ (dlopen env "libart.so") self') eq_refl)
          as (Hr & Ht & Hh & Ha).
        unfold result, after, trace in *. cbn -[find_symbols] in *.
        split; [exact Hr|]. split; [now rewrite Ht|].
        split; [exact Hh|]. exact Ha.
  - rewrite !(Init_opened env name _ Ho).
    destruct (find_symbols_independent env
                (set_handle_ (dlopen env name) self)
                (set_handle_ (dlopen env name) self') eq_refl)
      as (Hr & Ht & Hh & Ha).
    unfold result, after, trace in *. cbn -[find_symbols] in *.
    split; [exact Hr|]. split; [now rewrite Ht|].
    split; [exact Hh|]. exact Ha.
Qed.

Lemma Init_on_closes_opened
  (env : platform) (name : string) (self : JniInvocation) (this : Z) :
  dlclose_calls (trace (Init_on env name self)
                 ++ destroyed_alone this (after (Init_on env name self)))
  = opened_handles env (trace (Init_on env name self)).
Proof.
  rewrite destroyed_alone_events.
  all_paths env name self;
    unfold result, after, trace, opened_handles, dlclose_calls, dlopen_calls,
      lookup_failure;
    settle_tests.
Qed.

Lemma Init_on_loses_handle
  (env : platform) (name : string) (self : JniInvocation) (this : Z) :
  handle_ self ≠ NULL ->
  handle_ self ≠ dlopen env name ->
  handle_ self ≠ dlopen env "libart.so" ->
  handle_ (after (Init_on env name self)) ≠ handle_ self
  ∧ handle_ self
    ∉ dlclose_calls (trace (Init_on env name self)
                     ++ destroyed_alone this (after (Init_on env name self))).
Proof.
  intros Hheld Hother Hfallback.
  rewrite destroyed_alone_events.
  all_paths env name self;
    unfold result, after, trace, dlclose_calls, lookup_failure;
    settle_tests;
    (split; [congruence|]);
    rewrite ?elem_of_cons, ?elem_of_nil; intuition congruence.
Qed.

Lemma Init_on_forwarding
  (env : platform) (name : string) (self : JniInvocation)
  (code : code_space) (a b c : Z) :
  result (Init_on env name self) = true ->
  handle_ (after (Init_on env name self)) ≠ NULL
  ∧ opened_handles env (trace (Init_on env name self))
    = [handle_ (after (Init_on env name self))]
  ∧ JNI_GetDefaultJavaVMInitArgs code (after (Init_on env name self)) a
    = Some (code (dlsym env (handle_ (after (Init_on env name self)))
                    "JNI_GetDefaultJavaVMInitArgs") [a])
  ∧ JNI_CreateJavaVM code (after (Init_on env name self)) a b c
    = Some (code (dlsym env (handle_ (after (Init_on env name self)))
                    "JNI_CreateJavaVM") [a; b; c])
  ∧ JNI_GetCreatedJavaVMs code (after (Init_on env name self)) a b c
    = Some (code (dlsym env (handle_ (after (Init_on env name self)))
                    "JNI_GetCreatedJavaVMs") [a; b; c]).
Proof.
  all_paths env name self;
    unfold result, after, trace, opened_handles, dlopen_calls,
      JNI_GetDefaultJavaVMInitArgs, JNI_CreateJavaVM, JNI_GetCreatedJavaVMs,
      through;
    cbn in *; intros Hr; try discriminate Hr;
    settle_tests; repeat split; auto.
Qed.

Lemma Init_on_null_handle
  (env : platform) (name : string) (self : JniInvocation) (h : Z) :
  (∃ symbol, ev_dlsym h symbol ∈ trace (Init_on env name self))
  ∨ ev_dlclose h ∈ trace (Init_on env name self) ->
  h ≠ NULL ∧ opened_handles env (trace (Init_on env name self)) = [h].
Proof.
  all_paths env name self;
    unfold result, after, trace, opened_handles, dlopen_calls, lookup_failure;
    cbn; intros [[symbol Hin]|Hin]; revert Hin;
    rewrite ?elem_of_cons, ?elem_of_nil; intros Hin;
    split_membership; subst; settle_tests.
Qed.

(** The pointers [Init_on] leaves, whatever the instance held: a non-null
    handle goes with a true result and three non-null pointers; a failure of
    the second or third lookup leaves the earlier pointers as found. *)
Lemma Init_on_pointers
  (env : platform) (name : string) (self : JniInvocation) :
  (result (Init_on env name self) = true
   ↔ handle_ (after (Init_on env name self)) ≠ NULL)
  ∧ (handle_ (after (Init_on env name self)) ≠ NULL ->
     all_non_null (after (Init_on env name self)))
  ∧ (∀ h, ev_dlsym h "JNI_CreateJavaVM" ∈ trace (Init_on env name self) ->
          dlsym env h "JNI_CreateJavaVM" = NULL ->
          result (Init_on env name self) = false
          ∧ handle_ (after (Init_on env name self)) = NULL
          ∧ JNI_GetDefaultJavaVMInitArgs_ (after (Init_on env name self))
            = dlsym env h "JNI_GetDefaultJavaVMInitArgs"
          ∧ JNI_GetDefaultJavaVMInitArgs_ (after (Init_on env name self))
            ≠ NULL
          ∧ JNI_CreateJavaVM_ (after (Init_on env name self)) = NULL)
  ∧ (∀ h, ev_dlsym h "JNI_GetCreatedJavaVMs"
          ∈ trace (Init_on env name self) ->
          dlsym env h "JNI_GetCreatedJavaVMs" = NULL ->
          result (Init_on env name self) = false
          ∧ handle_ (after (Init_on env name self)) = NULL
          ∧ JNI_GetDefaultJavaVMInitArgs_ (after (Init_on env name self))
            ≠ NULL
          ∧ JNI_CreateJavaVM_ (after (Init_on env name self)) ≠ NULL
          ∧ JNI_GetCreatedJavaVMs_ (after (Init_on env name self)) = NULL).
Proof.
  all_paths env name self;
    unfold all_non_null, result, after, trace, lookup_failure; cbn in *;
    repeat split; intros;
    repeat match goal with
      | H : _ ∧ _ |- _ => destruct H
      end;
    split_membership;
    subst; try discriminate; try contradiction; try reflexivity;
    try assumption; try congruence.
Qed.

(** Along every run an instance that holds a handle has its three pointers
    set. *)
Lemma reachable_loaded (env : platform) (p : process) :
  reachable env p ->
  ∀ this self, objects p !! this = Some self ->
               handle_ self ≠ NULL -> all_non_null self.
Proof.
  induction 1 as [|p p' op Hreach IH Hperm Hstep]; intros this0 self0.
  - cbn. rewrite lookup_empty. discriminate.
  - destruct op as [this|this library|this]; cbn in Hperm, Hstep.
    + unfold JniInvocation_ctor, __android_log_assert in Hstep.
      destruct (decide (jni_invocation_ p ≠ NULL)); [discriminate Hstep|].
      injection Hstep as <-. cbn.
      destruct (decide (this = this0)) as [->|Hne].
      * rewrite lookup_insert_eq. intros [= <-] Hh. now destruct Hh.
      * rewrite lookup_insert_ne by exact Hne. apply IH.
    + destruct Hperm as [self Hself]. unfold call_Init in Hstep.
      rewrite Hself in Hstep. cbn in Hstep.
      destruct (Init env library self) as [out|] eqn:Hout;
        [|discriminate Hstep].
      cbn in Hstep. injection Hstep as <-. cbn.
      destruct (decide (this = this0)) as [->|Hne].
      * rewrite lookup_insert_eq. intros [= <-].
        apply Init_outcome in Hout as [_ ->].
        apply Init_on_pointers.
      * rewrite lookup_insert_ne by exact Hne. apply IH.
    + injection Hstep as <-. unfold JniInvocation_dtor.
      destruct (objects p !! this) as [self|] eqn:Hself; cbn; [|apply IH].
      destruct (decide (this = this0)) as [->|Hne].
      * rewrite lookup_delete_eq. discriminate.
      * rewrite lookup_delete_ne by exact Hne. apply IH.
Qed.

(** One construction from the start, on any platform. *)
Lemma fresh_instance_reachable (env : platform) :
  reachable env
    {| jni_invocation_ := 8192; objects := {[ 8192 := constructed ]} |}.
Proof.
  apply (reachable_step env process_start _ (op_new 8192)).
  - apply reachable_start.
  - split; [discriminate | reflexivity].
  - reflexivity.
Qed.

(** ** GetLibrary: the name that is loaded *)

Example scenario_A :
  GetLibrary user_device (Some (argument "custom.so")) = literal "libart.so".
Proof. vm_compute. reflexivity. Qed.

Example scenario_B : GetLibrary eng_device None = local_array "libfoo.so".
Proof. vm_compute. reflexivity. Qed.

(** C1, as stated, fails: a build without [HAVE_ANDROID_OS] never reads the
    debuggable flag.  With the flag stored as "0" it hands back the requested
    name "custom.so", not libart.so. *)
Lemma GetLibrary_host_keeps_request :
  ¬ debuggable_set host_build_user
  ∧ c_chars (GetLibrary host_build_user (Some (argument "custom.so")))
    = "custom.so"
  ∧ GetLibrary host_build_user (Some (argument "custom.so")) ≠ kLibraryFallback.
Proof.
  split; [|split].
  - vm_compute. discriminate.
  - vm_compute. reflexivity.
  - vm_compute. discriminate.
Qed.

(** C1, amended: in a build with [HAVE_ANDROID_OS], whenever the debuggable
    flag is not set to "1", [GetLibrary] returns the fallback libart.so for
    every requested name, null or not: two requests cannot be told apart. *)
Theorem GetLibrary_android_not_debuggable_is_fallback
  (env : platform) (library other : option c_str) :
  HAVE_ANDROID_OS env = true ->
  ¬ debuggable_set env ->
  GetLibrary env library = kLibraryFallback
  ∧ c_chars (GetLibrary env library) = "libart.so"
  ∧ GetLibrary env library = GetLibrary env other.
Proof.
  intros Hos Hnd.
  rewrite !(GetLibrary_not_debuggable env _ Hos Hnd). auto.
Qed.

Lemma GetLibrary_android_not_debuggable_is_fallback_witness :
  HAVE_ANDROID_OS user_device = true
  ∧ ¬ debuggable_set user_device
  ∧ GetLibrary user_device (Some (argument "custom.so")) = kLibraryFallback.
Proof.
  split; [reflexivity|]. split; [vm_compute; discriminate|].
  apply (GetLibrary_android_not_debuggable_is_fallback
           user_device (Some (argument "custom.so")) None);
    [reflexivity | vm_compute; discriminate].
Defined.

(** C5: with the debuggable flag set to "1", a non-null requested name is
    returned as it is: the very pointer the caller passed. *)
Theorem GetLibrary_debuggable_returns_request
  (env : platform) (library : c_str) :
  debuggable_set env ->
  GetLibrary env (Some library) = library.
Proof.
  intros Hd. destruct (HAVE_ANDROID_OS env) eqn:Hos.
  - now rewrite GetLibrary_debuggable.
  - now rewrite GetLibrary_host.
Qed.

Lemma GetLibrary_debuggable_returns_request_witness :
  debuggable_set eng_device
  ∧ GetLibrary eng_device (Some (argument "custom.so")) = argument "custom.so".
Proof.
  split; [vm_compute; reflexivity|].
  apply (GetLibrary_debuggable_returns_request eng_device (argument "custom.so")).
  vm_compute; reflexivity.
Defined.

(** A build without [HAVE_ANDROID_OS] has no property store to read: with
    the flag stored as "1" and the preferred library stored as "libfoo.so",
    a null request resolves to the literal libart.so. *)
Lemma GetLibrary_host_ignores_preferred :
  debuggable_set host_build
  ∧ properties host_build !! kLibrarySystemProperty = Some "libfoo.so"
  ∧ GetLibrary host_build None = kLibraryFallback.
Proof. repeat split; vm_compute; reflexivity. Qed.

(** C6, on the code: in a build with [HAVE_ANDROID_OS], with the debuggable
    flag "1" and a null request, [GetLibrary] copies the stored preferred
    library (libart.so when none is stored) into its local array
    [default_library] and returns the address of that array.  The array is
    gone when [GetLibrary] has returned: the value is not handed to the
    caller, nothing can be read through the pointer, and [Init] has no
    outcome. *)
Theorem GetLibrary_preferred_in_dead_array (env : platform) :
  HAVE_ANDROID_OS env = true ->
  debuggable_set env ->
  GetLibrary env None
  = local_array (property_get env kLibrarySystemProperty "libart.so")
  ∧ chars_behind (GetLibrary env None) = None
  ∧ ∀ self, Init env None self = None.
Proof.
  intros Hos Hd. rewrite (GetLibrary_debuggable env None Hos Hd).
  split; [reflexivity|]. split; [reflexivity|].
  intros self. apply Init_dead_array.
  now rewrite (GetLibrary_debuggable env None Hos Hd).
Qed.

Lemma GetLibrary_preferred_in_dead_array_witness :
  HAVE_ANDROID_OS eng_device = true
  ∧ debuggable_set eng_device
  ∧ GetLibrary eng_device None = local_array "libfoo.so"
  ∧ chars_behind (GetLibrary eng_device None) = None
  ∧ Init eng_device None constructed = None.
Proof.
  split; [reflexivity|]. split; [vm_compute; reflexivity|].
  destruct (GetLibrary_preferred_in_dead_array eng_device)
    as (Hp & Hc & Hi); [reflexivity | vm_compute; reflexivity |].
  split; [exact Hp|]. split; [exact Hc|]. apply Hi.
Defined.




(** ** Init: opening the library *)

(** C3: whenever the name [Init] attempts first fails to open: if it is
    libart.so, [Init] logs the error and returns false after that single
    [dlopen]; if it is another name, [Init] makes exactly one more [dlopen],
    of libart.so, and when that fails too it logs the error and returns
    false: there is no third attempt.  The name attempted first is the
    resolved one, and [Init] comes to it for every request whose resolved
    name can be read. *)
Theorem Init_open_failure_retries_once
  (env : platform) (library : option c_str) (self : JniInvocation) :
  (∀ out name rest,
     Init env library self = Some out ->
     dlopen_calls (trace out) = name :: rest ->
     dlopen env name = NULL ->
     (name = "libart.so" ->
      result out = false
      ∧ rest = []
      ∧ trace out
        = [ev_dlopen name;
           ev_log ANDROID_LOG_ERROR "Failed to dlopen %s: %s" [name]])
     ∧ (name ≠ "libart.so" ->
        rest = ["libart.so"]
        ∧ (dlopen env "libart.so" = NULL ->
           result out = false
           ∧ trace out
             = [ev_dlopen name;
                ev_log ANDROID_LOG_WARN
                  "Falling back from %s to %s after dlopen error: %s"
                  [name; "libart.so"];
                ev_dlopen "libart.so";
                ev_log ANDROID_LOG_ERROR "Failed to dlopen %s: %s"
                  ["libart.so"]])))
  ∧ (∀ name,
       chars_behind (GetLibrary env library) = Some name ->
       ∃ out rest,
         Init env library self = Some out
         ∧ dlopen_calls (trace out) = name :: rest).
Proof.
  split.
  - intros out name rest Hout Hcalls Hfail.
    apply Init_outcome in Hout as [_ ->].
    destruct (Init_on_first_open env (c_chars (GetLibrary env library)) self)
      as [rest' Hfirst].
    rewrite Hfirst in Hcalls. injection Hcalls as Hn Hrest. subst name rest'.
    destruct (Init_on_open_failure env _ self Hfail) as [Hsame Hother].
    split.
    + intros Hn. destruct (Hsame Hn) as [Hr Ht].
      split; [exact Hr|]. split; [|exact Ht].
      rewrite Ht in Hfirst. cbn in Hfirst. now injection Hfirst as <-.
    + intros Hn. destruct (Hother Hn) as [Hc Hboth].
      split; [|exact Hboth].
      rewrite Hc in Hfirst. now injection Hfirst as <-.
  - intros name Hname.
    destruct (Init_on_first_open env name self) as [rest Hfirst].
    exists (Init_on env name self), rest.
    split; [now apply Init_readable | exact Hfirst].
Qed.

Lemma Init_open_failure_retries_once_witness :
  chars_behind (GetLibrary no_library (Some (argument "custom.so")))
  = Some "custom.so"
  ∧ dlopen no_library "custom.so" = NULL
  ∧ dlopen no_library "libart.so" = NULL
  ∧ ∃ out,
      Init no_library (Some (argument "custom.so")) constructed = Some out
      ∧ dlopen_calls (trace out) = ["custom.so"; "libart.so"]
      ∧ result out = false.
Proof.
  split; [vm_compute; reflexivity|]. split; [vm_compute; reflexivity|].
  split; [vm_compute; reflexivity|].
  destruct (Init_open_failure_retries_once
              no_library (Some (argument "custom.so")) constructed)
    as [Hclaim Hcomes].
  destruct (Hcomes "custom.so") as (out & rest & Hout & Hcalls);
    [vm_compute; reflexivity|].
  destruct (Hclaim out "custom.so" rest Hout Hcalls) as [_ Hother];
    [vm_compute; reflexivity|].
  destruct Hother as [Hrest Hboth]; [discriminate|].
  destruct Hboth as [Hr _]; [vm_compute; reflexivity|].
  exists out. split; [exact Hout|]. split; [now rewrite Hcalls, Hrest|].
  exact Hr.
Defined.

(** C10: whenever [Init] ends with every [dlopen] it made failed (the open
    stage failed), it has returned false with the handle null and the three
    pointers as they were; it has made no lookup and closed nothing.  A
    freshly constructed instance is therefore left exactly as constructed.
    [Init] ends that way for every request whose resolved name can be read
    and does not open, when that name is libart.so or libart.so does not
    open either. *)
Theorem Init_open_failure_leaves_fields
  (env : platform) (library : option c_str) (self : JniInvocation) :
  (∀ out,
     Init env library self = Some out ->
     (∀ f, f ∈ dlopen_calls (trace out) -> dlopen env f = NULL) ->
     result out = false
     ∧ handle_ (after out) = NULL
     ∧ JNI_GetDefaultJavaVMInitArgs_ (after out)
       = JNI_GetDefaultJavaVMInitArgs_ self
     ∧ JNI_CreateJavaVM_ (after out) = JNI_CreateJavaVM_ self
     ∧ JNI_GetCreatedJavaVMs_ (after out) = JNI_GetCreatedJavaVMs_ self
     ∧ dlsym_calls (trace out) = []
     ∧ dlclose_calls (trace out) = []
     ∧ (self = constructed -> after out = constructed))
  ∧ (∀ name,
       chars_behind (GetLibrary env library) = Some name ->
       dlopen env name = NULL ->
       name = "libart.so" ∨ dlopen env "libart.so" = NULL ->
       ∃ out,
         Init env library self = Some out
         ∧ ∀ f, f ∈ dlopen_calls (trace out) -> dlopen env f = NULL).
Proof.
  split.
  - intros out Hout Hall. apply Init_outcome in Hout as [_ ->].
    apply Init_on_every_open_failed in Hall as [Hfail Hstop].
    destruct (Init_on_open_failure_fields env _ self Hfail Hstop)
      as (Hout & Hsym & Hclose).
    rewrite Hsym, Hclose. rewrite Hout. unfold result, after. cbn.
    repeat split; auto. intros ->. reflexivity.
  - intros name Hname Hfail Hstop. exists (Init_on env name self).
    split; [now apply Init_readable|].
    apply Init_on_every_open_failed. auto.
Qed.

Lemma Init_open_failure_leaves_fields_witness :
  chars_behind (GetLibrary no_library (Some (argument "custom.so")))
  = Some "custom.so"
  ∧ dlopen no_library "custom.so" = NULL
  ∧ dlopen no_library "libart.so" = NULL
  ∧ ∃ out,
      Init no_library (Some (argument "custom.so")) constructed = Some out
      ∧ result out = false
      ∧ after out = constructed.
Proof.
  split; [vm_compute; reflexivity|]. split; [vm_compute; reflexivity|].
  split; [vm_compute; reflexivity|].
  destruct (Init_open_failure_leaves_fields
              no_library (Some (argument "custom.so")) constructed)
    as [Hframe Hends].
  destruct (Hends "custom.so") as (out & Hout & Hall);
    [vm_compute; reflexivity | vm_compute; reflexivity
    | right; vm_compute; reflexivity |].
  destruct (Hframe out Hout Hall) as (Hr & _ & _ & _ & _ & _ & _ & Hsame).
  exists out. split; [exact Hout|]. split; [exact Hr|]. now apply Hsame.
Defined.

(** ** Init: binding the symbols *)

(** C4: whenever a lookup made by [Init] fails, [Init] returns false with
    the handle field null; the handle looked into is the non-null one the
    open stage obtained, it is closed, once, and the trace ends right there:
    failed lookup, error log, [dlclose].  Every lookup before it had
    succeeded and none follows. *)
Theorem Init_lookup_failure_closes_and_stops
  (env : platform) (library : option c_str) (self : JniInvocation)
  (out : bool * JniInvocation * list event) (h : Z) (symbol : string) :
  Init env library self = Some out ->
  ev_dlsym h symbol ∈ trace out ->
  dlsym env h symbol = NULL ->
  result out = false
  ∧ handle_ (after out) = NULL
  ∧ h ≠ NULL
  ∧ dlclose_calls (trace out) = [h]
  ∧ ∃ before,
      trace out = before ++ lookup_failure h symbol
      ∧ ∀ h' s', ev_dlsym h' s' ∈ before -> dlsym env h' s' ≠ NULL.
Proof.
  intros Hout. apply Init_outcome in Hout as [_ ->].
  apply Init_on_lookup_failure.
Qed.

Lemma Init_lookup_failure_closes_and_stops_witness :
  Init truncated_art None constructed
  = Some (Init_on truncated_art "libart.so" constructed)
  ∧ ev_dlsym 4096 "JNI_CreateJavaVM"
    ∈ trace (Init_on truncated_art "libart.so" constructed)
  ∧ dlsym truncated_art 4096 "JNI_CreateJavaVM" = NULL
  ∧ result (Init_on truncated_art "libart.so" constructed) = false
  ∧ handle_ (after (Init_on truncated_art "libart.so" constructed)) = NULL
  ∧ dlclose_calls (trace (Init_on truncated_art "libart.so" constructed))
    = [4096].
Proof.
  assert (Hout : Init truncated_art None constructed
                 = Some (Init_on truncated_art "libart.so" constructed)).
  { apply Init_readable. vm_compute. reflexivity. }
  assert (Hin : ev_dlsym 4096 "JNI_CreateJavaVM"
                ∈ trace (Init_on truncated_art "libart.so" constructed)).
  { apply list_elem_of_In. vm_compute. right; right; left; reflexivity. }
  assert (Hnull : dlsym truncated_art 4096 "JNI_CreateJavaVM" = NULL).
  { vm_compute. reflexivity. }
  split; [exact Hout|]. split; [exact Hin|]. split; [exact Hnull|].
  destruct (Init_lookup_failure_closes_and_stops
              truncated_art None constructed _ 4096 "JNI_CreateJavaVM"
              Hout Hin Hnull)
    as (Hr & Hh & _ & Hc & _).
  auto.
Defined.

Example scenario_C :
  Init eng_device (Some (argument "custom.so")) constructed
  = Some
      (true,
       {| handle_ := 4096;
          JNI_GetDefaultJavaVMInitArgs_ := 4100;
          JNI_CreateJavaVM_ := 4104;
          JNI_GetCreatedJavaVMs_ := 4108 |},
       [ev_dlopen "custom.so";
        ev_log ANDROID_LOG_WARN
          "Falling back from %s to %s after dlopen error: %s"
          ["custom.so"; "libart.so"];
        ev_dlopen "libart.so";
        ev_dlsym 4096 "JNI_GetDefaultJavaVMInitArgs";
        ev_dlsym 4096 "JNI_CreateJavaVM";
        ev_dlsym 4096 "JNI_GetCreatedJavaVMs"]).
Proof. vm_compute. reflexivity. Qed.

(** A run of a host program on the device with the truncated libart.so:
    construct at address 8192, then call [Init]. *)
Example truncated_art_run :
  reachable truncated_art
    {| jni_invocation_ := 8192;
       objects :=
         {[ 8192 := {| handle_ := NULL;
                       JNI_GetDefaultJavaVMInitArgs_ := 4100;
                       JNI_CreateJavaVM_ := NULL;
                       JNI_GetCreatedJavaVMs_ := NULL |} ]} |}.
Proof.
  apply (reachable_step truncated_art
           {| jni_invocation_ := 8192; objects := {[ 8192 := constructed ]} |}
           _ (op_Init 8192 None)).
  - apply fresh_instance_reachable.
  - exists constructed. reflexivity.
  - vm_compute. reflexivity.
Qed.

(** C2, as stated, fails: libart.so opens and exports only
    JNI_GetDefaultJavaVMInitArgs, so the second lookup fails.  [Init] returns
    false, and the first pointer still holds the address found, next to two
    null ones; that is the instance after the run construct, [Init]. *)
Lemma Init_second_lookup_failure_keeps_first_pointer :
  dlopen truncated_art "libart.so" ≠ NULL
  ∧ Init truncated_art None constructed
    = Some (false,
            {| handle_ := NULL;
               JNI_GetDefaultJavaVMInitArgs_ := 4100;
               JNI_CreateJavaVM_ := NULL;
               JNI_GetCreatedJavaVMs_ := NULL |},
            [ev_dlopen "libart.so";
             ev_dlsym 4096 "JNI_GetDefaultJavaVMInitArgs";
             ev_dlsym 4096 "JNI_CreateJavaVM";
             ev_log ANDROID_LOG_ERROR
               ("Failed to find symbol %s: %s" +:+ String "010"%char "")
               ["JNI_CreateJavaVM"];
             ev_dlclose 4096])
  ∧ reachable truncated_art
      {| jni_invocation_ := 8192;
         objects :=
           {[ 8192 := {| handle_ := NULL;
                         JNI_GetDefaultJavaVMInitArgs_ := 4100;
                         JNI_CreateJavaVM_ := NULL;
                         JNI_GetCreatedJavaVMs_ := NULL |} ]} |}
  ∧ ¬ all_null {| handle_ := NULL;
                  JNI_GetDefaultJavaVMInitArgs_ := 4100;
                  JNI_CreateJavaVM_ := NULL;
                  JNI_GetCreatedJavaVMs_ := NULL |}
  ∧ ¬ all_non_null {| handle_ := NULL;
                      JNI_GetDefaultJavaVMInitArgs_ := 4100;
                      JNI_CreateJavaVM_ := NULL;
                      JNI_GetCreatedJavaVMs_ := NULL |}.
Proof.
  split; [vm_compute; discriminate|].
  split; [vm_compute; reflexivity|].
  split; [exact truncated_art_run|].
  split.
  - intros (H & _ & _). discriminate H.
  - intros (_ & H & _). apply H. reflexivity.
Qed.

(** C2, amended: after every sequence of constructions, [Init] calls and
    destructions, an instance whose handle is non-null has its three
    pointers non-null, and an [Init] called on it leaves the handle non-null
    exactly when it returns true.  The pointers are not always all null or
    all non-null: when [Init] has opened a library and the second or the
    third lookup fails, [Init] returns false with the handle null and the
    failing pointer null, while each pointer looked up before it keeps the
    non-null address [dlsym] returned. *)
Theorem pointers_after_every_run
  (env : platform) (p : process) (this : Z) (self : JniInvocation) :
  reachable env p ->
  objects p !! this = Some self ->
  (handle_ self ≠ NULL -> all_non_null self)
  ∧ ∀ library out,
      Init env library self = Some out ->
      (result out = true ↔ handle_ (after out) ≠ NULL)
      ∧ (handle_ (after out) ≠ NULL -> all_non_null (after out))
      ∧ (∀ h, ev_dlsym h "JNI_CreateJavaVM" ∈ trace out ->
              dlsym env h "JNI_CreateJavaVM" = NULL ->
              result out = false
              ∧ handle_ (after out) = NULL
              ∧ JNI_GetDefaultJavaVMInitArgs_ (after out)
                = dlsym env h "JNI_GetDefaultJavaVMInitArgs"
              ∧ JNI_GetDefaultJavaVMInitArgs_ (after out) ≠ NULL
              ∧ JNI_CreateJavaVM_ (after out) = NULL)
      ∧ (∀ h, ev_dlsym h "JNI_GetCreatedJavaVMs" ∈ trace out ->
              dlsym env h "JNI_GetCreatedJavaVMs" = NULL ->
              result out = false
              ∧ handle_ (after out) = NULL
              ∧ JNI_GetDefaultJavaVMInitArgs_ (after out) ≠ NULL
              ∧ JNI_CreateJavaVM_ (after out) ≠ NULL
              ∧ JNI_GetCreatedJavaVMs_ (after out) = NULL).
Proof.
  intros Hreach Hself. split.
  - exact (reachable_loaded env p Hreach this self Hself).
  - intros library out Hout. apply Init_outcome in Hout as [_ ->].
    apply Init_on_pointers.
Qed.

Lemma pointers_after_every_run_witness :
  reachable truncated_art
    {| jni_invocation_ := 8192; objects := {[ 8192 := constructed ]} |}
  ∧ objects
      {| jni_invocation_ := 8192; objects := {[ 8192 := constructed ]} |}
    !! 8192
    = Some constructed
  ∧ Init truncated_art None constructed
    = Some (Init_on truncated_art "libart.so" constructed)
  ∧ ev_dlsym 4096 "JNI_CreateJavaVM"
    ∈ trace (Init_on truncated_art "libart.so" constructed)
  ∧ dlsym truncated_art 4096 "JNI_CreateJavaVM" = NULL
  ∧ result (Init_on truncated_art "libart.so" constructed) = false
  ∧ JNI_GetDefaultJavaVMInitArgs_
      (after (Init_on truncated_art "libart.so" constructed))
    ≠ NULL
  ∧ JNI_CreateJavaVM_ (after (Init_on truncated_art "libart.so" constructed))
    = NULL.
Proof.
  assert (Hout : Init truncated_art None constructed
                 = Some (Init_on truncated_art "libart.so" constructed)).
  { apply Init_readable. vm_compute. reflexivity. }
  assert (Hin : ev_dlsym 4096 "JNI_CreateJavaVM"
                ∈ trace (Init_on truncated_art "libart.so" constructed)).
  { apply list_elem_of_In. vm_compute. right; right; left; reflexivity. }
  assert (Hnull : dlsym truncated_art 4096 "JNI_CreateJavaVM" = NULL).
  { vm_compute. reflexivity. }
  split; [apply fresh_instance_reachable|]. split; [reflexivity|].
  split; [exact Hout|]. split; [exact Hin|]. split; [exact Hnull|].
  destruct (pointers_after_every_run truncated_art _ 8192 constructed
              (fresh_instance_reachable truncated_art) eq_refl)
    as [_ Hinit].
  destruct (Hinit None _ Hout) as (_ & _ & Hsecond & _).
  destruct (Hsecond 4096 Hin Hnull) as (Hr & _ & _ & Hp1 & Hp2).
  auto.
Defined.

(** ** Construction and destruction *)

(** The global access point: fatal before any construction, the registered
    address after one. *)
Lemma GetJniInvocation_before_construction :
  GetJniInvocation process_start
  = Aborts "jni_invocation_ == NULL" "JniInvocation"
      "Failed to create JniInvocation instance before using JNI invocation API".
Proof. reflexivity. Qed.

Lemma GetJniInvocation_after_construction (this : Z) (p p' : process) :
  this ≠ NULL ->
  JniInvocation_ctor this p = Returns p' ->
  GetJniInvocation p' = Returns this.
Proof.
  intros Hthis. unfold JniInvocation_ctor, __android_log_assert.
  destruct (decide (jni_invocation_ p ≠ NULL)); [discriminate|].
  intros [= <-]. unfold GetJniInvocation. cbn.
  destruct (decide (this = NULL)); [contradiction | reflexivity].
Qed.

(** C8: in every process a run can reach, constructing one more instance
    while one is live ends in the fatal assertion, and there is never more
    than one live instance. *)
Theorem second_instance_aborts (env : platform) (p : process) :
  reachable env p ->
  (size (objects p) ≤ 1)%nat
  ∧ (objects p ≠ ∅ ->
     ∀ this, JniInvocation_ctor this p
             = Aborts "jni_invocation_ != NULL" "JniInvocation"
                 "JniInvocation instance already initialized").
Proof.
  intros Hreach. pose proof (reachable_slot env p Hreach) as Hdom. split.
  - rewrite <- size_dom, Hdom.
    destruct (decide _); [rewrite size_empty | rewrite size_singleton]; lia.
  - intros Hlive this. unfold JniInvocation_ctor.
    destruct (decide (jni_invocation_ p ≠ NULL)) as [_|Hs]; [reflexivity|].
    exfalso. apply Hlive. apply dom_empty_inv_L. rewrite Hdom.
    destruct (decide (jni_invocation_ p = NULL)) as [_|E];
      [reflexivity | exfalso; apply Hs; exact E].
Qed.

Lemma one_instance_reachable :
  reachable user_device
    {| jni_invocation_ := 8192; objects := {[ 8192 := constructed ]} |}.
Proof. exact (fresh_instance_reachable user_device). Defined.

Lemma second_instance_aborts_witness :
  reachable user_device
    {| jni_invocation_ := 8192; objects := {[ 8192 := constructed ]} |}
  ∧ JniInvocation_ctor 12288
      {| jni_invocation_ := 8192; objects := {[ 8192 := constructed ]} |}
    = Aborts "jni_invocation_ != NULL" "JniInvocation"
        "JniInvocation instance already initialized".
Proof.
  split; [exact one_instance_reachable|].
  apply (second_instance_aborts user_device _ one_instance_reachable).
  intros H. apply (f_equal (fun m : gmap Z JniInvocation => m !! 8192)) in H.
  vm_compute in H. discriminate H.
Defined.

(** C9: destroying the only live instance sets the static slot back to null
    and leaves no object, so the constructor run next returns, with the new
    instance registered. *)
Theorem destroy_then_construct
  (p : process) (this : Z) (self : JniInvocation) :
  objects p = {[ this := self ]} ->
  jni_invocation_ (JniInvocation_dtor this p).1 = NULL
  ∧ objects (JniInvocation_dtor this p).1 = ∅
  ∧ ∀ this', JniInvocation_ctor this' (JniInvocation_dtor this p).1
             = Returns {| jni_invocation_ := this';
                          objects := {[ this' := constructed ]} |}.
Proof.
  intros Hobj. unfold JniInvocation_dtor.
  rewrite Hobj, lookup_singleton_eq. cbn. rewrite delete_singleton_eq.
  split; [reflexivity|]. split; [reflexivity|].
  intros this'. unfold JniInvocation_ctor. cbn.
  destruct (decide (NULL ≠ NULL)) as [E|_]; [contradiction|].
  now rewrite insert_empty.
Qed.

Lemma destroy_then_construct_witness :
  objects {| jni_invocation_ := 8192; objects := {[ 8192 := constructed ]} |}
  = {[ 8192 := constructed ]}
  ∧ JniInvocation_ctor 12288
      (JniInvocation_dtor 8192
         {| jni_invocation_ := 8192; objects := {[ 8192 := constructed ]} |}).1
    = Returns {| jni_invocation_ := 12288;
                 objects := {[ 12288 := constructed ]} |}.
Proof.
  split; [reflexivity|].
  apply (destroy_then_construct
           {| jni_invocation_ := 8192; objects := {[ 8192 := constructed ]} |}
           8192 constructed).
  reflexivity.
Defined.

(** ** Further properties: FindSymbol and Init *)

(** X1: [FindSymbol] stores what [dlsym] answered, null included, in the
    field it was given and in no other; it returns true exactly when the
    answer is non-null; the handle stays on success and is closed and nulled
    on failure. *)
Theorem FindSymbol_contract
  (env : platform) (pointer : member) (symbol : string)
  (self : JniInvocation) :
  let out := FindSymbol env pointer symbol self in
  (result out = true ↔ dlsym env (handle_ self) symbol ≠ NULL)
  ∧ deref pointer (after out) = dlsym env (handle_ self) symbol
  ∧ (∀ other, other ≠ pointer -> deref other (after out) = deref other self)
  ∧ handle_ (after out) = (if result out then handle_ self else NULL)
  ∧ dlclose_calls (trace out) = (if result out then [] else [handle_ self]).
Proof.
  intros out. subst out.
  destruct (decide (dlsym env (handle_ self) symbol = NULL)) as [Hv|Hv].
  - rewrite (FindSymbol_missing env pointer symbol self Hv).
    unfold result, after, trace. cbn. rewrite Hv.
    split; [split; [discriminate | intros H; now destruct H]|].
    split; [now destruct pointer|].
    split; [|split; reflexivity].
    intros other Hne. destruct other, pointer; try reflexivity; now destruct Hne.
  - rewrite (FindSymbol_found env pointer symbol self Hv).
    unfold result, after, trace. cbn.
    split; [split; [intros _; exact Hv | reflexivity]|].
    split; [apply deref_assign|].
    split; [|split; [apply handle_assign | reflexivity]].
    intros other Hne. destruct other, pointer; try reflexivity; now destruct Hne.
Qed.

(** X2: for every request whose resolved name can be read, [Init] returns,
    and it returns true exactly when that library opens and exports the
    three symbols, or it does not open, is not libart.so, and libart.so
    opens and exports the three symbols. *)
Theorem Init_true_iff
  (env : platform) (library : option c_str) (self : JniInvocation)
  (name : string) :
  chars_behind (GetLibrary env library) = Some name ->
  ∃ out,
    Init env library self = Some out
    ∧ (result out = true
       ↔ (dlopen env name ≠ NULL ∧ exports_all env (dlopen env name))
         ∨ (dlopen env name = NULL
            ∧ name ≠ "libart.so"
            ∧ dlopen env "libart.so" ≠ NULL
            ∧ exports_all env (dlopen env "libart.so"))).
Proof.
  intros Hname. exists (Init_on env name self).
  split; [now apply Init_readable | apply Init_on_true_iff].
Qed.

Lemma Init_true_iff_witness :
  chars_behind (GetLibrary eng_device (Some (argument "custom.so")))
  = Some "custom.so"
  ∧ ∃ out,
      Init eng_device (Some (argument "custom.so")) constructed = Some out
      ∧ result out = true.
Proof.
  split; [vm_compute; reflexivity|].
  destruct (Init_true_iff eng_device (Some (argument "custom.so"))
              constructed "custom.so")
    as (out & Hout & Hiff); [vm_compute; reflexivity|].
  exists out. split; [exact Hout|]. apply Hiff. right.
  split; [vm_compute; reflexivity|]. split; [discriminate|].
  split; [vm_compute; discriminate|].
  vm_compute. repeat split; discriminate.
Defined.

(** X3: for every request whose resolved name can be read, when that
    library opens [Init] makes no other [dlopen]: a symbol it lacks makes
    [Init] return false, with no attempt at libart.so. *)
Theorem Init_no_fallback_after_open
  (env : platform) (library : option c_str) (self : JniInvocation)
  (name : string) :
  chars_behind (GetLibrary env library) = Some name ->
  dlopen env name ≠ NULL ->
  ∃ out,
    Init env library self = Some out
    ∧ dlopen_calls (trace out) = [name]
    ∧ (¬ exports_all env (dlopen env name) -> result out = false).
Proof.
  intros Hname Hopened. exists (Init_on env name self).
  split; [now apply Init_readable | now apply Init_on_no_fallback].
Qed.

Lemma Init_no_fallback_after_open_witness :
  chars_behind (GetLibrary custom_without_symbols (Some (argument "custom.so")))
  = Some "custom.so"
  ∧ dlopen custom_without_symbols "custom.so" ≠ NULL
  ∧ exports_all custom_without_symbols (dlopen custom_without_symbols "libart.so")
  ∧ ∃ out,
      Init custom_without_symbols (Some (argument "custom.so")) constructed
      = Some out
      ∧ dlopen_calls (trace out) = ["custom.so"]
      ∧ result out = false.
Proof.
  split; [vm_compute; reflexivity|].
  split; [vm_compute; discriminate|].
  split; [vm_compute; repeat split; discriminate|].
  destruct (Init_no_fallback_after_open
              custom_without_symbols (Some (argument "custom.so")) constructed
              "custom.so")
    as (out & Hout & Hcalls & Hfalse);
    [vm_compute; reflexivity | vm_compute; discriminate |].
  exists out. split; [exact Hout|]. split; [exact Hcalls|]. apply Hfalse.
  intros (H & _ & _). vm_compute in H. apply H. reflexivity.
Defined.

(** X4: on a build with [HAVE_ANDROID_OS] whose debuggable flag is not "1",
    [Init] returns, and libart.so is the only library it ever passes to
    [dlopen], whatever name is requested. *)
Theorem Init_not_debuggable_opens_libart_only
  (env : platform) (library : option c_str) (self : JniInvocation) :
  HAVE_ANDROID_OS env = true ->
  ¬ debuggable_set env ->
  ∃ out,
    Init env library self = Some out
    ∧ dlopen_calls (trace out) = ["libart.so"].
Proof.
  intros Hos Hnd. exists (Init_on env "libart.so" self). split.
  - apply Init_readable.
    now rewrite (GetLibrary_not_debuggable env library Hos Hnd).
  - open_paths env "libart.so" self; try contradiction.
    + reflexivity.
    + unfold trace at 1. cbn -[find_symbols].
      now rewrite find_symbols_no_dlopen.
Qed.

Lemma Init_not_debuggable_opens_libart_only_witness :
  HAVE_ANDROID_OS user_device = true
  ∧ ¬ debuggable_set user_device
  ∧ ∃ out,
      Init user_device (Some (argument "custom.so")) constructed = Some out
      ∧ dlopen_calls (trace out) = ["libart.so"].
Proof.
  split; [reflexivity|]. split; [vm_compute; discriminate|].
  apply (Init_not_debuggable_opens_libart_only
           user_device (Some (argument "custom.so")) constructed);
    [reflexivity | vm_compute; discriminate].
Defined.

(** X5: for every request whose resolved name can be read, [Init] logs one
    error when it returns false and none when it returns true; it logs the
    fall-back warning exactly when that library does not open and is not
    libart.so. *)
Theorem Init_logs
  (env : platform) (library : option c_str) (self : JniInvocation)
  (name : string) :
  chars_behind (GetLibrary env library) = Some name ->
  ∃ out,
    Init env library self = Some out
    ∧ length (logged ANDROID_LOG_ERROR (trace out))
      = (if result out then 0%nat else 1%nat)
    ∧ logged ANDROID_LOG_WARN (trace out)
      = (if decide (dlopen env name = NULL ∧ name ≠ "libart.so")
         then ["Falling back from %s to %s after dlopen error: %s"]
         else []).
Proof.
  intros Hname. exists (Init_on env name self).
  split; [now apply Init_readable | apply Init_on_logs].
Qed.

Lemma Init_logs_witness :
  chars_behind (GetLibrary no_library (Some (argument "custom.so")))
  = Some "custom.so"
  ∧ ∃ out,
      Init no_library (Some (argument "custom.so")) constructed = Some out
      ∧ result out = false
      ∧ length (logged ANDROID_LOG_ERROR (trace out)) = 1%nat
      ∧ logged ANDROID_LOG_WARN (trace out)
        = ["Falling back from %s to %s after dlopen error: %s"].
Proof.
  split; [vm_compute; reflexivity|].
  destruct (Init_logs no_library (Some (argument "custom.so")) constructed
              "custom.so")
    as (out & Hout & Herr & Hwarn); [vm_compute; reflexivity|].
  exists out. split; [exact Hout|].
  assert (Hr : result out = false).
  { apply Init_outcome in Hout as [_ ->]. vm_compute. reflexivity. }
  split; [exact Hr|]. rewrite Hr in Herr. split; [exact Herr|].
  rewrite Hwarn. vm_compute. reflexivity.
Defined.

(** X6: [Init] neither reads nor keeps anything of the instance's earlier
    state that shows in whether it has an outcome, in its result, its trace
    or the handle it leaves; after a call that returns true the whole
    instance is the same whatever it held before. *)
Theorem Init_ignores_previous_state
  (env : platform) (library : option c_str) (self self' : JniInvocation) :
  match Init env library self, Init env library self' with
  | Some out, Some out' =>
      result out = result out'
      ∧ trace out = trace out'
      ∧ handle_ (after out) = handle_ (after out')
      ∧ (result out = true -> after out = after out')
  | None, None => True
  | _, _ => False
  end.
Proof.
  unfold Init. cbn.
  destruct (chars_behind (GetLibrary env library)) as [name|]; cbn;
    [apply Init_on_independent | exact I].
Qed.

(** ** Further properties: the handle from Init to the destructor *)

(** X7: whatever the instance held before, [Init] followed by the destructor
    closes exactly the handles this [Init] obtained from [dlopen], each once:
    a handle whose lookups failed is closed by [FindSymbol] and not again by
    the destructor. *)
Theorem Init_then_destroy_closes_what_was_opened
  (env : platform) (library : option c_str) (self : JniInvocation)
  (this : Z) (out : bool * JniInvocation * list event) :
  Init env library self = Some out ->
  dlclose_calls (trace out ++ destroyed_alone this (after out))
  = opened_handles env (trace out).
Proof.
  intros Hout. apply Init_outcome in Hout as [_ ->].
  apply Init_on_closes_opened.
Qed.

Lemma Init_then_destroy_closes_what_was_opened_witness :
  Init eng_device (Some (argument "custom.so")) constructed
  = Some (Init_on eng_device "custom.so" constructed)
  ∧ dlclose_calls
      (trace (Init_on eng_device "custom.so" constructed)
       ++ destroyed_alone 8192
            (after (Init_on eng_device "custom.so" constructed)))
    = [4096]
  ∧ opened_handles eng_device
      (trace (Init_on eng_device "custom.so" constructed))
    = [4096].
Proof.
  assert (Hout : Init eng_device (Some (argument "custom.so")) constructed
                 = Some (Init_on eng_device "custom.so" constructed)).
  { apply Init_readable. vm_compute. reflexivity. }
  split; [exact Hout|].
  rewrite (Init_then_destroy_closes_what_was_opened
             eng_device (Some (argument "custom.so")) constructed 8192 _ Hout).
  split; vm_compute; reflexivity.
Defined.

(** X8: a non-null handle the instance already holds, other than the ones
    the two names open, is lost by [Init]: it is not the handle left in the
    instance, and neither [Init] nor the destructor after it closes it. *)
Theorem Init_loses_previous_handle
  (env : platform) (library : option c_str) (self : JniInvocation)
  (this : Z) (out : bool * JniInvocation * list event) :
  Init env library self = Some out ->
  handle_ self ≠ NULL ->
  handle_ self ≠ dlopen env (c_chars (GetLibrary env library)) ->
  handle_ self ≠ dlopen env "libart.so" ->
  handle_ (after out) ≠ handle_ self
  ∧ handle_ self ∉ dlclose_calls (trace out ++ destroyed_alone this (after out)).
Proof.
  intros Hout. apply Init_outcome in Hout as [_ ->].
  apply Init_on_loses_handle.
Qed.

Lemma Init_loses_previous_handle_witness :
  handle_ (after (Init_on custom_only "custom.so" constructed)) = 8192
  ∧ Init custom_only (Some (argument "missing.so"))
      (after (Init_on custom_only "custom.so" constructed))
    = Some (Init_on custom_only "missing.so"
              (after (Init_on custom_only "custom.so" constructed)))
  ∧ result (Init_on custom_only "missing.so"
              (after (Init_on custom_only "custom.so" constructed)))
    = false
  ∧ (8192 : Z)
    ∉ dlclose_calls
        (trace (Init_on custom_only "missing.so"
                  (after (Init_on custom_only "custom.so" constructed)))
         ++ destroyed_alone 12288
              (after (Init_on custom_only "missing.so"
                        (after (Init_on custom_only "custom.so"
                                  constructed))))).
Proof.
  assert (Hout : Init custom_only (Some (argument "missing.so"))
                   (after (Init_on custom_only "custom.so" constructed))
                 = Some (Init_on custom_only "missing.so"
                           (after (Init_on custom_only "custom.so"
                                     constructed)))).
  { apply Init_readable. vm_compute. reflexivity. }
  split; [vm_compute; reflexivity|]. split; [exact Hout|].
  split; [vm_compute; reflexivity|].
  apply (Init_loses_previous_handle custom_only
           (Some (argument "missing.so"))
           (after (Init_on custom_only "custom.so" constructed))
           12288 _ Hout);
    vm_compute; discriminate.
Defined.

(** ** Further properties: forwarding and the global access point *)

(** X9: after an [Init] that returned true, the instance holds the one handle
    this [Init] opened, and each forwarding member function calls the address
    [dlsym] gave in that handle for the symbol of its own name, with its
    arguments in order. *)
Theorem Init_true_then_forwarding
  (env : platform) (library : option c_str) (self : JniInvocation)
  (out : bool * JniInvocation * list event)
  (code : code_space) (a b c : Z) :
  let h := handle_ (after out) in
  Init env library self = Some out ->
  result out = true ->
  h ≠ NULL
  ∧ opened_handles env (trace out) = [h]
  ∧ JNI_GetDefaultJavaVMInitArgs code (after out) a
    = Some (code (dlsym env h "JNI_GetDefaultJavaVMInitArgs") [a])
  ∧ JNI_CreateJavaVM code (after out) a b c
    = Some (code (dlsym env h "JNI_CreateJavaVM") [a; b; c])
  ∧ JNI_GetCreatedJavaVMs code (after out) a b c
    = Some (code (dlsym env h "JNI_GetCreatedJavaVMs") [a; b; c]).
Proof.
  intros h Hout. subst h. apply Init_outcome in Hout as [_ ->].
  apply Init_on_forwarding.
Qed.

Lemma Init_true_then_forwarding_witness :
  Init eng_device (Some (argument "custom.so")) constructed
  = Some (Init_on eng_device "custom.so" constructed)
  ∧ result (Init_on eng_device "custom.so" constructed) = true
  ∧ JNI_CreateJavaVM example_code
      (after (Init_on eng_device "custom.so" constructed)) 1 2 3
    = Some (example_code (dlsym eng_device 4096 "JNI_CreateJavaVM") [1; 2; 3]).
Proof.
  assert (Hout : Init eng_device (Some (argument "custom.so")) constructed
                 = Some (Init_on eng_device "custom.so" constructed)).
  { apply Init_readable. vm_compute. reflexivity. }
  split; [exact Hout|]. split; [vm_compute; reflexivity|].
  destruct (Init_true_then_forwarding
              eng_device (Some (argument "custom.so")) constructed _
              example_code 1 2 3 Hout)
    as (_ & _ & _ & H & _); [vm_compute; reflexivity|].
  exact H.
Defined.

(** X10: along every run the global access point aborts with its fatal
    message when no instance is live, and otherwise returns the address of
    the live instance. *)
Theorem GetJniInvocation_on_reachable (env : platform) (p : process) :
  reachable env p ->
  (objects p = ∅ ->
   GetJniInvocation p
   = Aborts "jni_invocation_ == NULL" "JniInvocation"
       "Failed to create JniInvocation instance before using JNI invocation API")
  ∧ (∀ this self, objects p !! this = Some self ->
                  GetJniInvocation p = Returns this).
Proof. exact (access_point_cases env p). Qed.

Lemma GetJniInvocation_on_reachable_witness :
  reachable user_device
    {| jni_invocation_ := 8192; objects := {[ 8192 := constructed ]} |}
  ∧ GetJniInvocation
      {| jni_invocation_ := 8192; objects := {[ 8192 := constructed ]} |}
    = Returns 8192.
Proof.
  split; [exact one_instance_reachable|].
  destruct (GetJniInvocation_on_reachable user_device _ one_instance_reachable)
    as [_ H].
  apply (H 8192 constructed). reflexivity.
Defined.

(** X11: along every run each of the three [extern "C"] functions either
    aborts with the access point's fatal message, when no instance is live,
    or gives what the member function of the same name gives on the live
    instance: it never runs on an address that holds no object. *)
Theorem extern_C_on_reachable
  (env : platform) (code : code_space) (p : process) (a b c : Z) :
  let fatal :=
    Aborts "jni_invocation_ == NULL" "JniInvocation"
      "Failed to create JniInvocation instance before using JNI invocation API" in
  reachable env p ->
  (objects p = ∅ ->
   extern_C.JNI_GetDefaultJavaVMInitArgs code p a = fatal
   ∧ extern_C.JNI_CreateJavaVM code p a b c = fatal
   ∧ extern_C.JNI_GetCreatedJavaVMs code p a b c = fatal)
  ∧ (∀ this self, objects p !! this = Some self ->
       extern_C.JNI_GetDefaultJavaVMInitArgs code p a
       = Returns (JNI_GetDefaultJavaVMInitArgs code self a)
       ∧ extern_C.JNI_CreateJavaVM code p a b c
         = Returns (JNI_CreateJavaVM code self a b c)
       ∧ extern_C.JNI_GetCreatedJavaVMs code p a b c
         = Returns (JNI_GetCreatedJavaVMs code self a b c)).
Proof.
  intros fatal Hreach. subst fatal.
  destruct (access_point_cases env p Hreach) as [Hnone Hlive].
  split.
  - intros He.
    unfold extern_C.JNI_GetDefaultJavaVMInitArgs, extern_C.JNI_CreateJavaVM,
      extern_C.JNI_GetCreatedJavaVMs, extern_C.on_instance.
    rewrite (Hnone He). auto.
  - intros this self Hself.
    unfold extern_C.JNI_GetDefaultJavaVMInitArgs, extern_C.JNI_CreateJavaVM,
      extern_C.JNI_GetCreatedJavaVMs, extern_C.on_instance.
    rewrite (Hlive this self Hself), Hself. cbn. auto.
Qed.

Lemma extern_C_on_reachable_witness :
  reachable user_device
    {| jni_invocation_ := 8192; objects := {[ 8192 := constructed ]} |}
  ∧ extern_C.JNI_CreateJavaVM example_code
      {| jni_invocation_ := 8192; objects := {[ 8192 := constructed ]} |} 1 2 3
    = Returns (JNI_CreateJavaVM example_code constructed 1 2 3).
Proof.
  split; [exact one_instance_reachable|].
  destruct (extern_C_on_reachable user_device example_code _ 1 2 3
              one_instance_reachable) as [_ H].
  destruct (H 8192 constructed) as (_ & H' & _); [reflexivity | exact H'].
Defined.

(** X12: along every run, destroying the live instance gives back the
    process as it was before any construction: the slot null and no object
    left. *)
Theorem destroy_on_reachable_is_start
  (env : platform) (p : process) (this : Z) :
  reachable env p ->
  is_Some (objects p !! this) ->
  (JniInvocation_dtor this p).1 = process_start.
Proof.
  intros Hreach [self Hself].
  pose proof (reachable_slot env p Hreach) as Hdom.
  assert (Hin : this ∈ dom (objects p)) by (apply elem_of_dom; eauto).
  unfold JniInvocation_dtor. rewrite Hself. cbn. unfold process_start.
  f_equal. apply dom_empty_inv_L. rewrite dom_delete_L, Hdom.
  rewrite Hdom in Hin.
  destruct (decide (jni_invocation_ p = NULL)) as [_|_].
  - apply not_elem_of_empty in Hin. destruct Hin.
  - apply elem_of_singleton in Hin as ->. apply difference_diag_L.
Qed.

Lemma destroy_on_reachable_is_start_witness :
  reachable user_device
    {| jni_invocation_ := 8192; objects := {[ 8192 := constructed ]} |}
  ∧ (JniInvocation_dtor 8192
       {| jni_invocation_ := 8192; objects := {[ 8192 := constructed ]} |}).1
    = process_start.
Proof.
  split; [exact one_instance_reachable|].
  apply (destroy_on_reachable_is_start user_device _ 8192
           one_instance_reachable).
  exists constructed. reflexivity.
Defined.

(** ** Further properties: what is never done *)

(** X13: unless the caller itself passes one, the pointer [GetLibrary]
    returns points into automatic storage, the local array
    [default_library] that is gone when [GetLibrary] has returned, exactly
    when the build has [HAVE_ANDROID_OS], the debuggable flag is "1" and the
    request is null.  In every other case it is the caller's pointer or the
    literal libart.so. *)
Theorem GetLibrary_returns_local_array_iff
  (env : platform) (library : option c_str) :
  (∀ l, library = Some l -> c_storage l ≠ automatic_storage) ->
  c_storage (GetLibrary env library) = automatic_storage
  ↔ HAVE_ANDROID_OS env = true ∧ debuggable_set env ∧ library = None.
Proof.
  intros Hcaller. destruct (HAVE_ANDROID_OS env) eqn:Hos.
  - destruct (decide (debuggable_set env)) as [Hd|Hnd].
    + rewrite (GetLibrary_debuggable env library Hos Hd).
      destruct library as [l|]; cbn.
      * split; [intros H; now apply Hcaller in H | intros (_ & _ & [=])].
      * split; auto.
    + rewrite (GetLibrary_not_debuggable env library Hos Hnd). cbn.
      split; [discriminate | intros (_ & Hd & _); contradiction].
  - rewrite (GetLibrary_host env library Hos).
    destruct library as [l|]; cbn.
    + split; [intros H; now apply Hcaller in H | intros ([=] & _)].
    + split; [discriminate | intros ([=] & _)].
Qed.

Lemma GetLibrary_returns_local_array_iff_witness :
  (∀ l, @None c_str = Some l -> c_storage l ≠ automatic_storage)
  ∧ c_storage (GetLibrary eng_device None) = automatic_storage.
Proof.
  split; [intros l H; discriminate H|].
  apply (GetLibrary_returns_local_array_iff eng_device None).
  - intros l H; discriminate H.
  - split; [reflexivity|]. split; [vm_compute; reflexivity | reflexivity].
Defined.

(** X14: [Init] never hands a null handle to [dlsym] or [dlclose]: every
    lookup and every close in its trace is on the one handle this call
    opened. *)
Theorem Init_never_uses_null_handle
  (env : platform) (library : option c_str) (self : JniInvocation)
  (out : bool * JniInvocation * list event) (h : Z) :
  Init env library self = Some out ->
  (∃ symbol, ev_dlsym h symbol ∈ trace out) ∨ ev_dlclose h ∈ trace out ->
  h ≠ NULL ∧ opened_handles env (trace out) = [h].
Proof.
  intros Hout. apply Init_outcome in Hout as [_ ->].
  apply Init_on_null_handle.
Qed.

Lemma Init_never_uses_null_handle_witness :
  Init truncated_art None constructed
  = Some (Init_on truncated_art "libart.so" constructed)
  ∧ ev_dlclose 4096 ∈ trace (Init_on truncated_art "libart.so" constructed)
  ∧ opened_handles truncated_art
      (trace (Init_on truncated_art "libart.so" constructed))
    = [4096].
Proof.
  assert (Hout : Init truncated_art None constructed
                 = Some (Init_on truncated_art "libart.so" constructed)).
  { apply Init_readable. vm_compute. reflexivity. }
  assert (Hin : ev_dlclose 4096
                ∈ trace (Init_on truncated_art "libart.so" constructed)).
  { apply list_elem_of_In. vm_compute. do 4 right. left. reflexivity. }
  split; [exact Hout|]. split; [exact Hin|].
  apply (Init_never_uses_null_handle truncated_art None constructed _ 4096 Hout).
  right. exact Hin.
Defined.
